(** * Property search chatbot: query parser, filter engine, summary and card price

    A shallow embedding of the core of [streamlit_app.py]
    ([parse_query], [search_properties], [generate_summary] and the price
    line of [format_property_card]) and the properties established for it.

    Modelling conventions.
    - A Python [str] is the list of its Unicode code points ([N]).  ASCII text
      is written with [lit]; other characters are written by code point.
    - [str.lower], the case-insensitive comparison of [str.contains] and the
      class [\d] are Python's on code points below U+0100, and [\s] is
      Python's on all of Unicode; a code point above U+00FF is taken to be
      caseless and not a digit.  The model is the program on every text whose
      code points above U+00FF are neither cased letters nor decimal digits.
    - A Python [float] is an IEEE 754 binary64 value: [spec_float] with
      precision 53 and maximal exponent 1024, operations rounding to nearest
      even.  A missing cell of a numeric pandas column is NaN.
    - A data frame is the list of its rows, in index order.
    - [float(...)] raises [ValueError] on malformed text, so [parse_query]
      returns in the error type [result]. *)

From Stdlib Require Import List ZArith NArith Bool Lia String Ascii.
From Stdlib Require Import DecimalString.
From Stdlib Require Import Floats.SpecFloat.
Import ListNotations.

Set Implicit Arguments.

(* ================================================================== *)
(** ** Python strings *)

Module PyStr.

Definition str : Type := list N.

(** An ASCII literal as a sequence of code points. *)
Definition lit (s : string) : str := map N_of_ascii (list_ascii_of_string s).

Definition between (lo hi c : N) : bool := (lo <=? c)%N && (c <=? hi)%N.

(** [c.lower()] on Basic Latin and Latin-1: A-Z and U+00C0-U+00DE except
    the multiplication sign U+00D7 move up by 32. *)
Definition lower_char (c : N) : N :=
  if between 65 90 c || (between 192 222 c && negb (c =? 215)%N)
  then (c + 32)%N else c.

Definition upper_char (c : N) : N :=
  if between 97 122 c then (c - 32)%N else c.

Definition is_cased (c : N) : bool := between 65 90 c || between 97 122 c.

(** [s.lower()] *)
Definition lower (s : str) : str := map lower_char s.

(** [s.title()]: a cased character is upper-cased after an uncased one and
    lower-cased after a cased one.  Only applied to the ASCII keys of the
    city table. *)
Fixpoint title_from (previous_is_cased : bool) (s : str) : str :=
  match s with
  | [] => []
  | c :: s' =>
      (if previous_is_cased then lower_char c else upper_char c)
        :: title_from (is_cased c) s'
  end.

Definition title (s : str) : str := title_from false s.

Fixpoint starts_with (p s : str) : bool :=
  match p, s with
  | [], _ => true
  | _ :: _, [] => false
  | a :: p', b :: s' => (a =? b)%N && starts_with p' s'
  end.

(** [p in s] *)
Fixpoint contains (p s : str) : bool :=
  starts_with p s
  || match s with
     | [] => false
     | _ :: s' => contains p s'
     end.

Definition str_eqb (a b : str) : bool :=
  if list_eq_dec N.eq_dec a b then true else false.

Definition nonempty (s : str) : bool :=
  match s with
  | [] => false
  | _ :: _ => true
  end.

(** [sep.join(parts)] *)
Fixpoint join (sep : str) (parts : list str) : str :=
  match parts with
  | [] => []
  | [p] => p
  | p :: rest => p ++ sep ++ join sep rest
  end.

(** Decimal rendering of a natural number, as [str(n)] and [f"{n}"] give. *)
Definition str_of_N (n : N) : str := lit (NilZero.string_of_uint (N.to_uint n)).

Definition is_digit (c : N) : bool := between 48 57 c.

(** [\s] of the [re] module on [str] patterns. *)
Definition is_space (c : N) : bool :=
  between 9 13 c || between 28 32 c || (c =? 133)%N || (c =? 160)%N
  || (c =? 5760)%N || between 8192 8202 c || (c =? 8232)%N || (c =? 8233)%N
  || (c =? 8239)%N || (c =? 8287)%N || (c =? 12288)%N.

End PyStr.

Import PyStr.

(* ================================================================== *)
(** ** The fragment of [re] the parser uses

    The three patterns are sequences of single-character atoms, each with a
    quantifier, one of them inside the capturing group.  Matching is the
    backtracking, greedy, leftmost matching of [re.search]. *)

Module Re.

Inductive quant : Type := One | ZeroOrOne | ZeroOrMore | OneOrMore.

Record atom : Type := mk_atom
  { cls : N -> bool;      (* the characters the atom accepts *)
    qt : quant;           (* its quantifier *)
    captured : bool }.    (* whether it lies inside group 1 *)

Definition regex : Type := list atom.

Definition chr (c : N) : atom := mk_atom (fun x => (x =? c)%N) One false.
Definition opt (c : N) : atom := mk_atom (fun x => (x =? c)%N) ZeroOrOne false.
Definition star (p : N -> bool) : atom := mk_atom p ZeroOrMore false.
Definition group_plus (p : N -> bool) : atom := mk_atom p OneOrMore true.

Definition word (s : str) : regex := map chr s.

Definition keep (a : atom) (c : N) (g : str) : str :=
  if captured a then c :: g else g.

(** [many a k s]: the atom [a] repeated, longest first, each time followed by
    the rest of the pattern [k]. *)
Fixpoint many (a : atom) (k : str -> option str) (s : str) : option str :=
  match s with
  | c :: s' =>
      if cls a c then
        match many a k s' with
        | Some g => Some (keep a c g)
        | None => k s
        end
      else k s
  | [] => k s
  end.

Definition one (a : atom) (k : str -> option str) (s : str) : option str :=
  match s with
  | c :: s' => if cls a c then option_map (keep a c) (k s') else None
  | [] => None
  end.

(** [match_here r s]: the pattern matches a prefix of [s]; the result is the
    text of group 1. *)
Fixpoint match_here (r : regex) (s : str) : option str :=
  match r with
  | [] => Some []
  | a :: r' =>
      match qt a with
      | One => one a (match_here r') s
      | ZeroOrOne =>
          match one a (match_here r') s with
          | Some g => Some g
          | None => match_here r' s
          end
      | ZeroOrMore => many a (match_here r') s
      | OneOrMore =>
          match s with
          | c :: s' =>
              if cls a c
              then option_map (keep a c) (many a (match_here r') s')
              else None
          | [] => None
          end
      end
  end.

(** [re.search(r, s)], reduced to [group(1)] of the match object. *)
Fixpoint search (r : regex) (s : str) : option str :=
  match match_here r s with
  | Some g => Some g
  | None =>
      match s with
      | [] => None
      | _ :: s' => search r s'
      end
  end.

(** [r] has an atom that must match at least once and accepts [ch] only. *)
Definition requires (r : regex) (ch : N) : Prop :=
  exists a, In a r /\ (qt a = One \/ qt a = OneOrMore)
            /\ forall c, cls a c = true -> c = ch.

End Re.

(* ================================================================== *)
(** ** Python floats *)

Module PyFloat.

Definition float : Type := spec_float.

Definition prec : Z := 53.
Definition emax : Z := 1024.

Definition of_Z (n : Z) : float := binary_normalize prec emax n 0 false.

Definition zero : float := S754_zero false.
Definition nan : float := S754_nan.

Definition mul : float -> float -> float := SFmul prec emax.
Definition add : float -> float -> float := SFadd prec emax.
Definition div : float -> float -> float := SFdiv prec emax.
Definition leb : float -> float -> bool := SFleb.
Definition ltb : float -> float -> bool := SFltb.

Definition isna (x : float) : bool :=
  match x with
  | S754_nan => true
  | _ => false
  end.

(** [bool(x)]: every float but the two zeros is true. *)
Definition truthy (x : float) : bool :=
  match x with
  | S754_zero _ => false
  | _ => true
  end.

(** The value [n / 10^k] for [k > 0], rounded once to the nearest float: the
    division of the two integers, each taken as a mantissa with exponent 0. *)
Definition decimal (n : Z) (k : nat) : float :=
  match n with
  | Zpos p =>
      div (S754_finite false p 0)
          (S754_finite false (Pos.pow 10 (Pos.of_nat k)) 0)
  | _ => zero
  end.

Fixpoint digits_val (acc : Z) (s : str) : option Z :=
  match s with
  | [] => Some acc
  | c :: s' =>
      if is_digit c then digits_val (10 * acc + Z.of_N (c - 48)) s' else None
  end.

(** The text before the first full stop, and the text after it if any. *)
Fixpoint split_dot (s : str) : str * option str :=
  match s with
  | [] => ([], None)
  | c :: s' =>
      if (c =? 46)%N then ([], Some s')
      else let '(a, b) := split_dot s' in (c :: a, b)
  end.

(** [float(s)] for text over digits and full stops, the alphabet of the
    group [[\d.]+]: digits with at most one full stop and at least one
    digit.  [None] stands for [ValueError]. *)
Definition float_of_str (s : str) : option float :=
  let '(ip, fp) := split_dot s in
  let fp' := match fp with Some x => x | None => [] end in
  match ip ++ fp' with
  | [] => None
  | ds =>
      match digits_val 0 ds with
      | Some n =>
          Some (match fp' with
                | [] => of_Z n
                | _ => decimal n (List.length fp')
                end)
      | None => None
      end
  end.

(** Nearest integer to [num / den], ties to even ([den > 0], [num >= 0]). *)
Definition round_half_even (num den : Z) : Z :=
  let q := (num / den)%Z in
  let r := (num mod den)%Z in
  match (2 * r ?= den)%Z with
  | Lt => q
  | Gt => (q + 1)%Z
  | Eq => if Z.even q then q else (q + 1)%Z
  end.

(** [|m * 2^e| * 10^d], rounded to an integer. *)
Definition scaled (d : nat) (m : positive) (e : Z) : Z :=
  let p := (10 ^ Z.of_nat d)%Z in
  if (0 <=? e)%Z then (Zpos m * 2 ^ e * p)%Z
  else round_half_even (Zpos m * p) (2 ^ (- e)).

Definition sign (s : bool) : str := if s then lit "-" else [].

Definition pad_zeros (d : nat) (s : str) : str :=
  repeat 48%N (d - List.length s) ++ s.

(** The digits of [n / 10^d], with [d] decimals. *)
Definition fixed (d : nat) (n : Z) : str :=
  let p := (10 ^ Z.of_nat d)%Z in
  str_of_N (Z.to_N (n / p))
  ++ match d with
     | O => []
     | _ => lit "." ++ pad_zeros d (str_of_N (Z.to_N (n mod p)))
     end.

(** [f"{x:.<d>f}"] *)
Definition format_f (d : nat) (x : float) : str :=
  match x with
  | S754_nan => lit "nan"
  | S754_infinity s => sign s ++ lit "inf"
  | S754_zero s => sign s ++ fixed d 0
  | S754_finite s m e => sign s ++ fixed d (scaled d m e)
  end.

End PyFloat.

Import PyFloat.

(* ================================================================== *)
(** ** Data model *)

(** A failed [float(...)] ends [parse_query] with [ValueError]. *)
Inductive result (A : Type) : Type :=
| Ok (a : A)
| ValueError.

Arguments ValueError {A}.

(** The filter dictionary [parse_query] returns; [None] is Python's [None]. *)
Record QueryFilter : Type := mk_filter
  { city : option str;
    bhk : option str;
    budget_max : option float;
    possession : option str }.

(** One row of the merged table, with the columns the core reads.  A missing
    text cell is [None], a missing price is NaN. *)
Record Listing : Type := mk_listing
  { fullAddress : option str;
    type : option str;
    price : float;
    status : option str }.

Definition DataFrame : Type := list Listing.

(** The currency prefix of every price the file formats.  The file holds the
    three characters U+201A, U+00C7, U+03C0 (bytes E2 80 9A, C3 87, CF 80)
    where a rupee sign U+20B9 (bytes E2 82 B9) was meant. *)
Definition currency : str := [8218; 199; 960]%N.

Definition rupee_sign : N := 8377%N.

(* ================================================================== *)
(** ** [parse_query] *)

(** The dictionary [cities], in insertion order, which is the order
    [cities.items()] iterates in. *)
Definition cities : list (str * list str) :=
  [ (lit "pune", [lit "pune"; lit "pimpri"; lit "chinchwad"]);
    (lit "mumbai", [lit "mumbai"; lit "bombay"; lit "chembur"]);
    (lit "bangalore", [lit "bangalore"; lit "bengaluru"]) ].

(** The inner loop over the variations of one city: the first variation found
    sets [city] and [break]s out of this loop. *)
Fixpoint scan_variations (city_name : str) (variations : list str)
  (query_lower : str) (city : option str) : option str :=
  match variations with
  | [] => city
  | variation :: rest =>
      if contains variation query_lower then Some (title city_name)
      else scan_variations city_name rest query_lower city
  end.

(** The outer loop over [cities.items()]; it has no [break]. *)
Fixpoint scan_cities (items : list (str * list str)) (query_lower : str)
  (city : option str) : option str :=
  match items with
  | [] => city
  | (city_name, variations) :: rest =>
      scan_cities rest query_lower
        (scan_variations city_name variations query_lower city)
  end.

(** [(\d+)\s*bhk] *)
Definition bhk_re : Re.regex :=
  [Re.group_plus is_digit; Re.star is_space] ++ Re.word (lit "bhk").

Definition dot : N := 46%N.

Definition digit_or_dot (c : N) : bool := is_digit c || (c =? dot)%N.

(** The text both budget patterns share up to the unit.  After [under\s*]
    the file has the characters U+201A, U+00C7, U+03C0 and then [?], which
    binds to the last of them only: U+201A and U+00C7 are required and
    U+03C0 is optional. *)
Definition under_amount : Re.regex :=
  Re.word (lit "under")
  ++ [Re.star is_space; Re.chr 8218; Re.chr 199; Re.opt 960; Re.star is_space;
      Re.group_plus digit_or_dot; Re.star is_space].

Definition cr_re : Re.regex := under_amount ++ Re.word (lit "cr").
Definition lakh_re : Re.regex := under_amount ++ Re.word (lit "lakh").

(** The budget statements of lines 124-131: the crore pattern, then the lakh
    pattern, each assigning [budget_max] when it matches. *)
Definition extract_budget (query_lower : str) : result (option float) :=
  let budget_max := None in
  let after_cr :=
    match Re.search cr_re query_lower with
    | Some g =>
        match float_of_str g with
        | Some x => Ok (Some (mul x (of_Z 10000000)))
        | None => ValueError
        end
    | None => Ok budget_max
    end in
  match after_cr with
  | ValueError => ValueError
  | Ok budget_max =>
      match Re.search lakh_re query_lower with
      | Some g =>
          match float_of_str g with
          | Some x => Ok (Some (mul x (of_Z 100000)))
          | None => ValueError
          end
      | None => Ok budget_max
      end
  end.

Definition READY_TO_MOVE : str := lit "READY_TO_MOVE".
Definition UNDER_CONSTRUCTION : str := lit "UNDER_CONSTRUCTION".

(** The possession statements of lines 134-138. *)
Definition extract_possession (query_lower : str) : option str :=
  if contains (lit "ready") query_lower
     || contains (lit "ready to move") query_lower
  then Some READY_TO_MOVE
  else if contains (lit "construction") query_lower
          || contains (lit "under construction") query_lower
  then Some UNDER_CONSTRUCTION
  else None.

(** Lines 100-145. *)
Definition parse_query (query : str) : result QueryFilter :=
  let query_lower := lower query in
  let city := scan_cities cities query_lower None in
  let bhk :=
    match Re.search bhk_re query_lower with
    | Some g => Some (g ++ lit "BHK")
    | None => None
    end in
  match extract_budget query_lower with
  | ValueError => ValueError
  | Ok budget_max =>
      let possession := extract_possession query_lower in
      Ok (mk_filter city bhk budget_max possession)
  end.

(* ================================================================== *)
(** ** [search_properties] *)

(** [df.head(n)]: the first [n] rows, or all but the last [-n] rows when [n]
    is negative. *)
Definition head (n : Z) (df : DataFrame) : DataFrame :=
  if (0 <=? n)%Z then firstn (Z.to_nat n) df
  else firstn (List.length df - Z.to_nat (- n)) df.

(** [series.str.contains(pat, case=False, na=False)] on one cell, for a
    pattern without regular-expression metacharacters (pandas compiles
    [pat] as a regular expression; the names [parse_query] produces are
    letters only).  Case is ignored by lower-casing both texts, which is the
    matching of [re.IGNORECASE] on code points below U+0100; the letters
    U+0130, U+0131, U+017F and U+212A of an address, which that flag takes
    for i, s and k, are not. *)
Definition str_contains (pat : str) (cell : option str) : bool :=
  match cell with
  | Some s => contains (lower pat) (lower s)
  | None => false
  end.

(** A pattern of ASCII letters, digits and spaces only: as a regular
    expression it stands for itself. *)
Definition literal_pattern (pat : str) : bool :=
  forallb (fun c => between 48 57 c || between 65 90 c || between 97 122 c
                    || (c =? 32)%N) pat.

(** [series == value] on one cell. *)
Definition cell_eqb (cell : option str) (value : str) : bool :=
  match cell with
  | Some s => str_eqb s value
  | None => false
  end.

(** [bool(filters[key])] for the text entries: [None] and the empty string
    are false. *)
Definition truthy_str (o : option str) : bool :=
  match o with
  | Some s => nonempty s
  | None => false
  end.

(** [bool(filters['budget_max'])]: [None] and zero are false. *)
Definition truthy_budget (o : option float) : bool :=
  match o with
  | Some x => truthy x
  | None => false
  end.

(** The four row masks of lines 157, 161, 165 and 169. *)
Definition city_mask (filters : QueryFilter) (row : Listing) : bool :=
  match city filters with
  | Some c => str_contains c (fullAddress row)
  | None => false
  end.

Definition bhk_mask (filters : QueryFilter) (row : Listing) : bool :=
  match bhk filters with
  | Some b => cell_eqb (type row) b
  | None => false
  end.

Definition budget_mask (filters : QueryFilter) (row : Listing) : bool :=
  match budget_max filters with
  | Some b => leb (price row) b
  | None => false
  end.

Definition possession_mask (filters : QueryFilter) (row : Listing) : bool :=
  match possession filters with
  | Some p => cell_eqb (status row) p
  | None => false
  end.

(** Lines 148-171.  [df.empty] holds of the frame with no rows; each filter
    is applied when its entry is true as a condition.  This is the value
    returned; the one exception of the function, raised by [.str] at line
    157 on an address column that is not of a text dtype, is with its
    caller [respond]. *)
Definition search_properties (df : DataFrame) (filters : QueryFilter)
  (limit : Z) : DataFrame :=
  match df with
  | [] => df
  | _ :: _ =>
      let result_df := df in
      let result_df :=
        if truthy_str (city filters)
        then filter (city_mask filters) result_df else result_df in
      let result_df :=
        if truthy_str (bhk filters)
        then filter (bhk_mask filters) result_df else result_df in
      let result_df :=
        if truthy_budget (budget_max filters)
        then filter (budget_mask filters) result_df else result_df in
      let result_df :=
        if truthy_str (possession filters)
        then filter (possession_mask filters) result_df else result_df in
      head limit result_df
  end.

(* ================================================================== *)
(** ** [generate_summary] *)

Definition notna (x : float) : bool := negb (isna x).

(** [series.dropna()] *)
Definition dropna (xs : list float) : list float := filter notna xs.

(** The sum numpy takes of a float64 array ([ndarray.sum], which pandas
    calls in [nanmean]): pairwise summation.  Fewer than eight values are
    added in order to a zero; up to 128 values are added in eight running
    sums, one for each position modulo eight, the eight are added as a
    balanced tree and the values left over (fewer than eight) are added in
    order; more values are split in two parts, the first a multiple of
    eight, summed apart. *)
Definition add8 (r xs : list float) : list float :=
  map (fun rx => add (fst rx) (snd rx)) (combine r xs).

Definition tree8 (r : list float) : float :=
  match r with
  | [r0; r1; r2; r3; r4; r5; r6; r7] =>
      add (add (add r0 r1) (add r2 r3)) (add (add r4 r5) (add r6 r7))
  | _ => zero
  end.

(** The loop over the full blocks of eight after the first: the running sums
    and the values left over. *)
Fixpoint unrolled (r xs : list float) (blocks : nat)
  : list float * list float :=
  match blocks with
  | O => (r, xs)
  | S blocks' => unrolled (add8 r (firstn 8 xs)) (skipn 8 xs) blocks'
  end.

Definition block_sum (a : list float) : float :=
  let '(r, rest) :=
    unrolled (firstn 8 a) (skipn 8 a) (List.length a / 8 - 1) in
  fold_left add rest (tree8 r).

(** [fuel] bounds the depth of the splitting; the length of the list is
    enough ([pairwise_sum_fuel]). *)
Fixpoint pairwise_sum (fuel : nat) (a : list float) : float :=
  let n := List.length a in
  if (n <? 8)%nat then fold_left add a zero
  else if (n <=? 128)%nat then block_sum a
  else
    match fuel with
    | O => zero
    | S fuel' =>
        let n2 := (n / 2)%nat in
        let n2 := (n2 - n2 mod 8)%nat in
        add (pairwise_sum fuel' (firstn n2 a))
            (pairwise_sum fuel' (skipn n2 a))
    end.

(** The reduction starts from the identity of addition and adds the pairwise
    sum to it.  The zeros this and the short loop start from are +0.0 here;
    a numpy that starts from -0.0 gives the same sum unless every value is
    itself -0.0. *)
Definition np_sum (a : list float) : float :=
  add zero (pairwise_sum (List.length a) a).

Definition negative_zero (x : float) : bool :=
  match x with
  | S754_zero true => true
  | _ => false
  end.

(** [series.mean()]: the sum of the values over their count. *)
Definition mean (xs : list float) : float :=
  div (np_sum xs) (of_Z (Z.of_nat (List.length xs))).

Definition no_results : str :=
  lit "No properties found matching your criteria. Try adjusting your budget or location preferences.".

Definition budget_str (b : float) : str :=
  if leb (of_Z 10000000) b
  then currency ++ format_f 1 (div b (of_Z 10000000)) ++ lit " Cr"
  else currency ++ format_f 0 (div b (of_Z 100000)) ++ lit " L".

Definition avg_str (avg_price : float) : str :=
  if leb (of_Z 10000000) avg_price
  then currency ++ format_f 2 (div avg_price (of_Z 10000000)) ++ lit " Cr"
  else currency ++ format_f 0 (div avg_price (of_Z 100000)) ++ lit " L".

(** The first sentence: the clauses joined by spaces, with a full stop. *)
Definition summary_head (count : nat) (filters : QueryFilter) : str :=
  let parts :=
    [lit "Found " ++ str_of_N (N.of_nat count) ++ lit " "
       ++ (if (count =? 1)%nat then lit "property" else lit "properties")] in
  let parts :=
    match bhk filters with
    | Some b =>
        if nonempty b
        then parts ++ [lit "matching your " ++ b ++ lit " requirement"]
        else parts
    | None => parts
    end in
  let parts :=
    match city filters with
    | Some c => if nonempty c then parts ++ [lit "in " ++ c] else parts
    | None => parts
    end in
  let parts :=
    match budget_max filters with
    | Some b =>
        if truthy b then parts ++ [lit "under " ++ budget_str b] else parts
    | None => parts
    end in
  join (lit " ") parts ++ lit ".".

(** Lines 174-204. *)
Definition generate_summary (results : DataFrame) (filters : QueryFilter)
  : str :=
  let count := List.length results in
  if (count =? 0)%nat then no_results
  else
    let summary := summary_head count filters in
    let prices := dropna (map price results) in
    if (0 <? List.length prices)%nat
    then summary ++ lit " Average price is around "
                 ++ avg_str (mean prices) ++ lit "."
    else summary.

(* ================================================================== *)
(** ** The price line of [format_property_card] *)

(** Lines 210-214: the local [price_str]. *)
Definition price_str (row : Listing) : str :=
  let price_raw := price row in
  if notna price_raw && ltb zero price_raw
  then
    if leb (of_Z 10000000) price_raw
    then currency ++ format_f 2 (div price_raw (of_Z 10000000)) ++ lit " Cr"
    else currency ++ format_f 2 (div price_raw (of_Z 100000)) ++ lit " L"
  else lit "Price on request".

(* ================================================================== *)
(** ** Vocabulary of the specification *)

Module Spec.

(** Some alias of some city occurs in the lower-cased query. *)
Definition mentions_city (query_lower : str) : bool :=
  existsb (fun item => existsb (fun v => contains v query_lower) (snd item))
    cities.

(** Following the specification's words: aliases are scanned in mapping
    order and the city whose entry is iterated first wins. *)
Fixpoint first_listed_city (items : list (str * list str))
  (query_lower : str) : option str :=
  match items with
  | [] => None
  | (city_name, variations) :: rest =>
      if existsb (fun v => contains v query_lower) variations
      then Some (title city_name)
      else first_listed_city rest query_lower
  end.

(** Following the specification's words: the word "under", an optional
    currency symbol, a number and the unit. *)
Definition under_amount : Re.regex :=
  Re.word (lit "under")
  ++ [Re.star is_space; Re.opt rupee_sign; Re.star is_space;
      Re.group_plus digit_or_dot; Re.star is_space].

Definition cr_pattern : Re.regex := under_amount ++ Re.word (lit "cr").
Definition lakh_pattern : Re.regex := under_amount ++ Re.word (lit "lakh").

(** Following the specification's words: a row satisfies every predicate
    whose filter field is not null. *)
Definition holds_non_null (filters : QueryFilter) (row : Listing) : bool :=
  match city filters with
  | Some c => str_contains c (fullAddress row)
  | None => true
  end
  && match bhk filters with
     | Some b => cell_eqb (type row) b
     | None => true
     end
  && match budget_max filters with
     | Some b => leb (price row) b
     | None => true
     end
  && match possession filters with
     | Some p => cell_eqb (status row) p
     | None => true
     end.

(** A row satisfies every predicate whose filter field is true as a Python
    condition: present, and neither the empty string nor zero. *)
Definition passes (filters : QueryFilter) (row : Listing) : bool :=
  (negb (truthy_str (city filters)) || city_mask filters row)
  && (negb (truthy_str (bhk filters)) || bhk_mask filters row)
  && (negb (truthy_budget (budget_max filters)) || budget_mask filters row)
  && (negb (truthy_str (possession filters)) || possession_mask filters row).

(** The city entry, when present, is a pattern [str_contains] covers. *)
Definition literal_city (filters : QueryFilter) : bool :=
  match city filters with
  | Some c => literal_pattern c
  | None => true
  end.

Definition no_filter : QueryFilter := mk_filter None None None None.

Definition without_budget (filters : QueryFilter) : QueryFilter :=
  mk_filter (city filters) (bhk filters) None (possession filters).

End Spec.

(** Sample data for the concrete statements. *)
Module Sample.

Definition baner : Listing :=
  mk_listing (Some (lit "Baner, Pune")) (Some (lit "2BHK"))
    (of_Z 9000000) (Some READY_TO_MOVE).

Definition chembur : Listing :=
  mk_listing (Some (lit "Chembur, Mumbai")) (Some (lit "3BHK"))
    (of_Z 11000000) (Some UNDER_CONSTRUCTION).

Definition wakad : Listing :=
  mk_listing (Some (lit "Wakad, PUNE")) (Some (lit "3BHK"))
    (of_Z 25000000) (Some READY_TO_MOVE).

Definition unpriced : Listing :=
  mk_listing None (Some (lit "1BHK")) nan None.

Definition table : DataFrame := [baner; chembur; wakad; unpriced].

Definition two_cities : str := lit "flats in pune or mumbai".
Definition both_units : str := lit "under 1 cr under 5 lakh".
Definition zero_crore : str := lit "under 0 cr".
Definition plain : str := lit "show me something nice".

(** The first entry of the sidebar's [example_queries], as the file has it. *)
Definition sidebar_example : str :=
  lit "3BHK flat in Pune under " ++ currency ++ lit "1.2 Cr".

Definition pune_3bhk : QueryFilter :=
  mk_filter (Some (lit "Pune")) (Some (lit "3BHK")) (Some (of_Z 30000000)) None.

Definition zero_budget : QueryFilter :=
  mk_filter (Some (lit "Pune")) None (Some zero) None.

End Sample.

(* ================================================================== *)
(** ** The rest of [format_property_card] *)

(** Modelled from the spec: the types of the columns the card reads beside
    those of [Listing] (the CSV files are not among the sources): project
    name, landmark and parking type are text, lift is a truth value, balcony
    count, carpet area and bathroom count are numbers.  A missing text or
    truth-value cell is [None], a missing number is NaN; every key is
    present in a row of the merged table, so the defaults of [row.get] are
    not used. *)
Record Row : Type := mk_row
  { listing : Listing;
    projectName : option str;
    landmark : option str;
    lift : option bool;
    parkingType : option str;
    balcony : float;
    carpetArea : float;
    bathrooms : float }.

Definition dq : str := [34]%N.   (* the double quote *)
Definition nl : str := [10]%N.   (* the line feed *)

(** [int(x)]: the integer part, towards zero.  [None] stands for the
    [OverflowError] raised on an infinity and the [ValueError] raised on
    NaN. *)
Definition int_of_float (x : float) : option Z :=
  match x with
  | S754_zero _ => Some 0%Z
  | S754_finite s m e =>
      let a := if (0 <=? e)%Z then (Zpos m * 2 ^ e)%Z
               else (Zpos m / 2 ^ (- e))%Z in
      Some (if s then (- a)%Z else a)
  | S754_infinity _ => None
  | S754_nan => None
  end.

(** [f"{n}"] of an integer. *)
Definition str_of_Z (n : Z) : str :=
  if (n <? 0)%Z then lit "-" ++ str_of_N (Z.to_N (- n))
  else str_of_N (Z.to_N n).

(** [str(cell)] and [f"{cell}"] of a text cell: the missing cell is the
    float NaN and prints as "nan". *)
Definition cell_text (cell : option str) : str :=
  match cell with
  | Some s => s
  | None => lit "nan"
  end.

(** [s.replace(old, new)] for single characters. *)
Definition replace_char (old new : N) (s : str) : str :=
  map (fun c => if (c =? old)%N then new else c) s.

(** Line 218. *)
Definition status_class (status : option str) : str :=
  if contains (lit "READY") (cell_text status)
  then lit "status-ready" else lit "status-construction".

(** Line 219; [title] is Python's on ASCII text. *)
Definition status_display (status : option str) : str :=
  title (replace_char 95 32 (cell_text status)).

(** Lines 222-228: the list [amenities].  [int] of the balcony count may
    raise. *)
Definition amenities (row : Row) : option (list str) :=
  let amenities := [] in
  let amenities :=
    match lift row with
    | Some true => amenities ++ [lit "Lift"]
    | _ => amenities
    end in
  let amenities :=
    match parkingType row with
    | Some _ => amenities ++ [lit "Parking"]
    | None => amenities
    end in
  if notna (balcony row) && ltb zero (balcony row)
  then
    match int_of_float (balcony row) with
    | Some n => Some (amenities ++ [str_of_Z n ++ lit " Balcony"])
    | None => None
    end
  else Some amenities.

(** The text of the card between its fields, lines 233-246, and of a badge,
    line 230. *)
Definition card_open : str :=
  nl
  ++ lit "    <div class="
  ++ dq
  ++ lit "property-card"
  ++ dq
  ++ lit ">"
  ++ nl
  ++ lit "        <div class="
  ++ dq
  ++ lit "property-title"
  ++ dq
  ++ lit ">"
  ++ [63743; 252; 232; 162]%N
  ++ lit " ".

Definition card_price : str :=
  lit "</div>"
  ++ nl
  ++ lit "        <div class="
  ++ dq
  ++ lit "property-price"
  ++ dq
  ++ lit ">".

Definition card_location : str :=
  lit "</div>"
  ++ nl
  ++ lit "        <div class="
  ++ dq
  ++ lit "property-details"
  ++ dq
  ++ lit ">"
  ++ nl
  ++ lit "            <strong>"
  ++ [63743; 252; 236; 231]%N
  ++ lit " Location:</strong> ".

Definition card_configuration : str :=
  lit "<br>"
  ++ nl
  ++ lit "            <strong>"
  ++ [63743; 252; 232; 8224]%N
  ++ lit " Configuration:</strong> ".

Definition card_status : str :=
  lit "<br>"
  ++ nl
  ++ lit "            <strong>"
  ++ [63743; 252; 236; 214]%N
  ++ lit " Status:</strong> <span class="
  ++ dq
  ++ lit "badge ".

Definition card_status_mid : str :=
  dq
  ++ lit ">".

Definition card_status_end : str :=
  lit "</span><br>"
  ++ nl
  ++ lit "            ".

Definition carpet_label : str :=
  lit "<strong>"
  ++ [63743; 252; 236; 234]%N
  ++ lit " Carpet Area:</strong> ".

Definition carpet_unit : str :=
  lit " sq.ft<br>".

Definition card_gap : str :=
  nl
  ++ lit "            ".

Definition bathrooms_label : str :=
  lit "<strong>"
  ++ [63743; 252; 246; 248]%N
  ++ lit " Bathrooms:</strong> ".

Definition line_break : str :=
  lit "<br>".

Definition card_amenities : str :=
  nl
  ++ lit "            <strong>"
  ++ [8218; 250; 174]%N
  ++ lit " Amenities:</strong> ".

Definition card_close : str :=
  nl
  ++ lit "        </div>"
  ++ nl
  ++ lit "    </div>"
  ++ nl
  ++ lit "    ".

Definition badge_open : str :=
  lit "<span class="
  ++ dq
  ++ lit "badge"
  ++ dq
  ++ lit ">".

Definition badge_close : str :=
  lit "</span>".

Definition badge (a : str) : str := badge_open ++ a ++ badge_close.

(** Line 230: the badges of [amenities[:3]], joined by the empty string. *)
Definition amenities_html (amenities : list str) : str :=
  List.concat (map badge (firstn 3 amenities)).

(** Line 243: the badges, or the placeholder when there is none. *)
Definition amenities_cell (amenities : list str) : str :=
  let html := amenities_html amenities in
  if nonempty html then html else lit "Contact for details".

(** Line 241. *)
Definition carpet_line (row : Row) : str :=
  if notna (carpetArea row)
  then carpet_label ++ format_f 0 (carpetArea row) ++ carpet_unit
  else [].

(** Line 242; [int] of the bathroom count may raise. *)
Definition bathrooms_line (row : Row) : option str :=
  if notna (bathrooms row)
  then
    match int_of_float (bathrooms row) with
    | Some n => Some (bathrooms_label ++ str_of_Z n ++ line_break)
    | None => None
    end
  else Some [].

(** Lines 207-247.  [None] stands for the exception of a failed [int]. *)
Definition format_property_card (row : Row) : option str :=
  match amenities row with
  | None => None
  | Some amenities =>
      match bathrooms_line row with
      | None => None
      | Some bathrooms_html =>
          Some (card_open ++ cell_text (projectName row)
                ++ card_price ++ price_str (listing row)
                ++ card_location ++ cell_text (landmark row)
                ++ card_configuration ++ cell_text (type (listing row))
                ++ card_status ++ status_class (status (listing row))
                ++ card_status_mid ++ status_display (status (listing row))
                ++ card_status_end ++ carpet_line row
                ++ card_gap ++ bathrooms_html
                ++ card_amenities ++ amenities_cell amenities
                ++ card_close)
      end
  end.

(* ================================================================== *)
(** ** The handling of one query *)

(** The dtype of the [fullAddress] column.  A column read with some text in
    it is of the object dtype; a column with no text at all is read as
    float64 (all NaN). *)
Inductive column_dtype : Type := object_dtype | float64_dtype.

Inductive outcome (A : Type) : Type :=
| Returned (a : A)
| Raised_ValueError
| Raised_AttributeError.

Arguments Raised_ValueError {A}.
Arguments Raised_AttributeError {A}.

(** Line 157 is reached for a table with rows and a filter with a city;
    there [.str] raises AttributeError on a float64 column. *)
Definition str_accessor_raises (address_dtype : column_dtype)
  (df : DataFrame) (filters : QueryFilter) : bool :=
  match df, address_dtype with
  | _ :: _, float64_dtype => truthy_str (city filters)
  | _, _ => false
  end.

(** Lines 321-327: the query is parsed, the table searched with the default
    limit of 10, and the summary written from the results. *)
Definition respond (address_dtype : column_dtype) (df : DataFrame)
  (query : str) : outcome (str * DataFrame) :=
  match parse_query query with
  | ValueError => Raised_ValueError
  | Ok filters =>
      if str_accessor_raises address_dtype df filters
      then Raised_AttributeError
      else
        let results := search_properties df filters 10 in
        let summary := generate_summary results filters in
        Returned (summary, results)
  end.

(* ================================================================== *)
(** ** Vocabulary of the further properties *)

(** [l1] is [l2] with some elements left out, the others in place. *)
Inductive Subseq {A : Type} : list A -> list A -> Prop :=
| Subseq_nil : Subseq [] []
| Subseq_skip (x : A) (l1 l2 : list A) : Subseq l1 l2 -> Subseq l1 (x :: l2)
| Subseq_keep (x : A) (l1 l2 : list A) :
    Subseq l1 l2 -> Subseq (x :: l1) (x :: l2).

(** The row with its price replaced. *)
Definition with_price (g : Listing -> float) (row : Listing) : Listing :=
  mk_listing (fullAddress row) (type row) (g row) (status row).

(** Further sample data. *)
Module Sample2.

Definition tower : Row :=
  mk_row Sample.wakad (Some (lit "Sky Tower")) (Some (lit "Near Metro"))
    (Some true) (Some (lit "Covered")) (of_Z 2) (of_Z 1250) (of_Z 3).

Definition bare : Row :=
  mk_row Sample.unpriced None None None None nan nan nan.

Definition endless : Row :=
  mk_row Sample.baner None None (Some false) None
    (S754_infinity false) nan nan.

Definition three_bhk : str := lit "Spacious 3 BHK flat".
Definition ready_or_not : str := lit "Ready flats or under construction".


(** 10000000.1, 9999999.7, 9999998.9, 9999999.9, 10000001.1, 9999999.7,
    10000000.3, 10000000.3: added in order their sum is just below
    80,000,000, added as numpy adds eight values it is 80,000,000. *)
Definition eight_prices : list float :=
  [decimal 100000001 1; decimal 99999997 1; decimal 99999989 1;
   decimal 99999999 1; decimal 100000011 1; decimal 99999997 1;
   decimal 100000003 1; decimal 100000003 1].

End Sample2.

(* ================================================================== *)
(** * Properties *)

(** ** Strings *)

Lemma lower_char_not_C7 : forall c, lower_char c <> 199%N.
Proof.
  intros c. unfold lower_char, between.
  destruct (N.leb_spec 65 c), (N.leb_spec c 90), (N.leb_spec 192 c),
    (N.leb_spec c 222), (N.eqb_spec c 215); cbn; lia.
Qed.

Lemma lower_no_C7 : forall s, ~ In 199%N (lower s).
Proof.
  induction s as [|c s IH]; cbn; [tauto|].
  intros [H|H]; [exact (lower_char_not_C7 _ H) | auto].
Qed.

Lemma starts_with_app : forall p x s,
  starts_with (p ++ x) s = true -> starts_with p s = true.
Proof.
  induction p as [|a p IH]; intros x s H; [destruct s; reflexivity|].
  destruct s as [|b s]; cbn in *; [discriminate|].
  apply andb_true_iff in H as [H1 H2].
  rewrite H1. cbn. eauto.
Qed.

Lemma contains_app : forall p x s,
  contains (p ++ x) s = true -> contains p s = true.
Proof.
  induction s as [|b s IH]; cbn; intros H.
  - rewrite orb_false_r in *. eauto using starts_with_app.
  - apply orb_true_iff in H as [H|H]; apply orb_true_iff.
    + left. eauto using starts_with_app.
    + right. auto.
Qed.

Lemma starts_with_contains : forall p s,
  starts_with p s = true -> contains p s = true.
Proof.
  intros p [|b s] H; cbn [contains]; rewrite H; reflexivity.
Qed.

Lemma contains_suffix : forall p x s,
  contains (p ++ x) s = true -> contains x s = true.
Proof.
  induction p as [|a p IH]; intros x s H; [exact H|].
  induction s as [|b s IHs]; [discriminate|].
  cbn [contains]. apply orb_true_iff. right.
  change ((a :: p) ++ x) with (a :: (p ++ x)) in *.
  cbn [contains] in H. apply orb_true_iff in H as [H|H].
  - cbn [starts_with] in H. apply andb_true_iff in H as [_ H].
    apply IH. apply starts_with_contains. exact H.
  - auto.
Qed.

Lemma contains_app_false : forall p x s,
  contains p s = false -> contains (p ++ x) s = false.
Proof.
  intros p x s H. destruct (contains (p ++ x) s) eqn:E; [|reflexivity].
  apply contains_app in E. congruence.
Qed.

(** ** Regular expressions: a required character occurs in the text *)

Module ReFacts.

Import Re.

Lemma one_inv : forall a k s g,
  one a k s = Some g ->
  exists c s' g', s = c :: s' /\ cls a c = true /\ k s' = Some g'.
Proof.
  intros a k [|c s'] g H; cbn in H; [discriminate|].
  destruct (cls a c) eqn:E; [|discriminate].
  destruct (k s') as [g'|] eqn:K; [|discriminate].
  exists c, s', g'. auto.
Qed.

Lemma many_inv : forall a k s g,
  many a k s = Some g ->
  exists pre s' g', s = pre ++ s' /\ k s' = Some g'.
Proof.
  intros a k. induction s as [|c s IH]; intros g H; cbn in H.
  - exists [], [], g. auto.
  - destruct (cls a c).
    + destruct (many a k s) as [g1|] eqn:M.
      * destruct (IH _ eq_refl) as (pre & s' & g' & -> & K).
        exists (c :: pre), s', g'. auto.
      * exists [], (c :: s), g. auto.
    + exists [], (c :: s), g. auto.
Qed.

(** A match of [a :: r] ends with a match of [r] on a suffix. *)
Lemma match_here_tail : forall a r s g,
  match_here (a :: r) s = Some g ->
  exists pre s' g', s = pre ++ s' /\ match_here r s' = Some g'.
Proof.
  intros a r s g H. cbn in H. destruct (qt a).
  - apply one_inv in H as (c & s' & g' & -> & _ & K).
    exists [c], s', g'. auto.
  - destruct (one a (match_here r) s) as [g1|] eqn:O.
    + apply one_inv in O as (c & s' & g' & -> & _ & K).
      exists [c], s', g'. auto.
    + exists [], s, g. auto.
  - apply many_inv in H. exact H.
  - destruct s as [|c s]; [discriminate|].
    destruct (cls a c); [|discriminate].
    destruct (many a (match_here r) s) as [g1|] eqn:M; [|discriminate].
    apply many_inv in M as (pre & s' & g' & -> & K).
    exists (c :: pre), s', g'. auto.
Qed.

(** A match of [a :: r] starts with a character of [a] when [a] is not
    optional. *)
Lemma match_here_first : forall a r s g,
  match_here (a :: r) s = Some g ->
  qt a = One \/ qt a = OneOrMore ->
  exists c s', s = c :: s' /\ cls a c = true.
Proof.
  intros a r s g H [Q|Q]; cbn in H; rewrite Q in H.
  - apply one_inv in H as (c & s' & _ & -> & C & _). eauto.
  - destruct s as [|c s]; [discriminate|].
    destruct (cls a c) eqn:C; [|discriminate]. eauto.
Qed.

Lemma match_here_requires : forall r ch s g,
  requires r ch -> match_here r s = Some g -> In ch s.
Proof.
  induction r as [|a r IH]; intros ch s g (b & Hin & Hq & Hc) H.
  - destruct Hin.
  - destruct Hin as [<-|Hin].
    + destruct (match_here_first _ _ _ H Hq) as (c & s' & -> & C).
      left. auto.
    + apply match_here_tail in H as (pre & s' & g' & -> & K).
      apply in_or_app. right.
      apply (IH ch s' g'); [exists b; auto | exact K].
Qed.

Lemma search_requires : forall r ch s g,
  requires r ch -> search r s = Some g -> In ch s.
Proof.
  intros r ch s g R. induction s as [|c s IH]; intros H; cbn [search] in H.
  - destruct (match_here r []) eqn:M; [|discriminate].
    eapply match_here_requires; eauto.
  - destruct (match_here r (c :: s)) eqn:M.
    + eapply match_here_requires; eauto.
    + right. auto.
Qed.

Lemma search_absent : forall r ch s,
  requires r ch -> ~ In ch s -> search r s = None.
Proof.
  intros r ch s R N. destruct (search r s) eqn:E; [|reflexivity].
  exfalso. eauto using search_requires.
Qed.

End ReFacts.

(** ** The budget patterns need U+00C7, which lower-casing removes *)

Lemma cr_re_requires_C7 : Re.requires cr_re 199%N.
Proof.
  exists (Re.chr 199). split; [cbn; tauto|]. split; [left; reflexivity|].
  intros c H. cbn in H. apply N.eqb_eq in H. exact H.
Qed.

Lemma lakh_re_requires_C7 : Re.requires lakh_re 199%N.
Proof.
  exists (Re.chr 199). split; [cbn; tauto|]. split; [left; reflexivity|].
  intros c H. cbn in H. apply N.eqb_eq in H. exact H.
Qed.

Lemma cr_re_never_matches : forall query,
  Re.search cr_re (lower query) = None.
Proof.
  intros. eapply ReFacts.search_absent;
    [apply cr_re_requires_C7 | apply lower_no_C7].
Qed.

Lemma lakh_re_never_matches : forall query,
  Re.search lakh_re (lower query) = None.
Proof.
  intros. eapply ReFacts.search_absent;
    [apply lakh_re_requires_C7 | apply lower_no_C7].
Qed.

Lemma extract_budget_lower : forall query,
  extract_budget (lower query) = Ok None.
Proof.
  intros. unfold extract_budget.
  rewrite cr_re_never_matches, lakh_re_never_matches. reflexivity.
Qed.

Lemma parse_query_eq : forall query,
  parse_query query =
  Ok (mk_filter (scan_cities cities (lower query) None)
        match Re.search bhk_re (lower query) with
        | Some g => Some (g ++ lit "BHK")
        | None => None
        end
        None
        (extract_possession (lower query))).
Proof.
  intros. unfold parse_query. rewrite extract_budget_lower. reflexivity.
Qed.

Lemma scan_cities_none : forall query_lower,
  Spec.mentions_city query_lower = false ->
  scan_cities cities query_lower None = None.
Proof.
  intros q H. unfold Spec.mentions_city in H. cbn in H.
  repeat match goal with
         | E : _ || _ = false |- _ => apply orb_false_iff in E; destruct E
         end.
  cbn.
  repeat match goal with
         | E : contains _ q = false |- _ => rewrite E; clear E
         end.
  reflexivity.
Qed.

Lemma extract_possession_none : forall query_lower,
  contains (lit "ready") query_lower = false ->
  contains (lit "construction") query_lower = false ->
  extract_possession query_lower = None.
Proof.
  intros q R C. unfold extract_possession.
  assert (R2 : contains (lit "ready to move") q = false)
    by exact (contains_app_false (lit "ready") (lit " to move") q R).
  assert (C2 : contains (lit "under construction") q = false).
  { destruct (contains (lit "under construction") q) eqn:E; [|reflexivity].
    apply (contains_suffix (lit "under ") (lit "construction")) in E.
    congruence. }
  rewrite R, R2, C, C2. reflexivity.
Qed.

(** ** The city loop keeps the last city found *)

Lemma scan_cities_is_last_listed : forall query_lower,
  scan_cities cities query_lower None
  = Spec.first_listed_city (rev cities) query_lower.
Proof.
  intros q. cbn.
  repeat match goal with
         | |- context [contains ?v q] => destruct (contains v q); cbn
         end; reflexivity.
Qed.

(** C1 (defect in the code).  When aliases of several cities occur in the
    query the claim promises the city whose entry is iterated first.  The
    [break] leaves the inner loop only, so a later entry overwrites [city]:
    for every query the city returned is the first one found when the mapping
    is read backwards, and "flats in pune or mumbai", which names Pune first
    in the mapping order, is parsed as Mumbai. *)
Theorem C1_last_listed_city_wins :
  (forall query, exists f,
      parse_query query = Ok f
      /\ city f = Spec.first_listed_city (rev cities) (lower query))
  /\ contains (lit "pune") (lower Sample.two_cities) = true
  /\ contains (lit "mumbai") (lower Sample.two_cities) = true
  /\ Spec.first_listed_city cities (lower Sample.two_cities)
     = Some (lit "Pune")
  /\ parse_query Sample.two_cities
     = Ok (mk_filter (Some (lit "Mumbai")) None None None).
Proof.
  split; [|repeat split; reflexivity].
  intros query. eexists. split; [apply parse_query_eq|].
  apply scan_cities_is_last_listed.
Qed.

(** C2.  [parse_query] returns a filter for every query text and never ends
    in [ValueError]; a dimension whose pattern is absent from the lower-cased
    text has a null field. *)
Theorem C2_parse_query_total : forall query : str,
  exists f,
    parse_query query = Ok f
    /\ (Spec.mentions_city (lower query) = false -> city f = None)
    /\ (Re.search bhk_re (lower query) = None -> bhk f = None)
    /\ (Re.search cr_re (lower query) = None ->
        Re.search lakh_re (lower query) = None -> budget_max f = None)
    /\ (contains (lit "ready") (lower query) = false ->
        contains (lit "construction") (lower query) = false ->
        possession f = None).
Proof.
  intros query. eexists. split; [apply parse_query_eq|].
  cbn [city bhk budget_max possession]. repeat split.
  - apply scan_cities_none.
  - intros ->. reflexivity.
  - apply extract_possession_none.
Qed.

Lemma C2_parse_query_total_witness :
  exists f,
    parse_query Sample.plain = Ok f
    /\ city f = None /\ bhk f = None /\ budget_max f = None
    /\ possession f = None.
Proof.
  destruct (C2_parse_query_total Sample.plain) as (f & E & C & B & M & P).
  exists f. split; [exact E|].
  split; [apply C; reflexivity|]. split; [apply B; reflexivity|].
  split; [apply M; reflexivity | apply P; reflexivity].
Defined.

(** On a text both regular expressions match, with numerals [float]
    accepts, the lakh amount replaces the crore amount.  Such a text holds
    U+00C7, so it is never the lower-cased query. *)
Lemma extract_budget_lakh_last : forall text g1 g2 x1 x2,
  Re.search cr_re text = Some g1 -> float_of_str g1 = Some x1 ->
  Re.search lakh_re text = Some g2 -> float_of_str g2 = Some x2 ->
  extract_budget text = Ok (Some (mul x2 (of_Z 100000))).
Proof.
  intros text g1 g2 x1 x2 H1 F1 H2 F2. unfold extract_budget.
  rewrite H1, F1, H2, F2. reflexivity.
Qed.

Example extract_budget_lakh_last_reached :
  extract_budget (lit "under" ++ [8218; 199]%N ++ lit "1 cr under"
                  ++ [8218; 199]%N ++ lit "5 lakh")
  = Ok (Some (of_Z 500000)).
Proof. reflexivity. Qed.

(** C4 (defect in the code).  The claim is about queries in which both
    budget patterns match.  Both regular expressions of the file require the
    characters U+201A and U+00C7 after "under", and lower-casing leaves no
    U+00C7 in the text they are run on, so neither ever matches: no query
    gets a budget.  "under 1 cr under 5 lakh" matches both patterns as the
    specification words them and is parsed with no budget instead of
    500,000; the sidebar's own example query loses its budget too. *)
Theorem C4_budget_never_extracted :
  (forall query, exists f, parse_query query = Ok f /\ budget_max f = None)
  /\ Re.search Spec.cr_pattern (lower Sample.both_units) = Some (lit "1")
  /\ Re.search Spec.lakh_pattern (lower Sample.both_units) = Some (lit "5")
  /\ parse_query Sample.both_units = Ok Spec.no_filter
  /\ parse_query Sample.sidebar_example
     = Ok (mk_filter (Some (lit "Pune")) (Some (lit "3BHK")) None None).
Proof.
  split; [|repeat split; reflexivity].
  intros query. eexists. split; [apply parse_query_eq|]. reflexivity.
Qed.

(** C5.  For an empty result sequence the summary is the fixed guidance
    message, whatever the filter holds. *)
Theorem C5_empty_results_message : forall filters : QueryFilter,
  generate_summary [] filters
  = lit "No properties found matching your criteria. Try adjusting your budget or location preferences.".
Proof.
  intros filters. reflexivity.
Qed.

(** ** Reading the frame *)

Lemma head_nil : forall limit, head limit [] = [].
Proof.
  intros limit. unfold head. destruct (0 <=? limit)%Z; apply firstn_nil.
Qed.

Lemma search_no_filter : forall df limit,
  search_properties df (mk_filter None None None None) limit = head limit df.
Proof.
  intros [|row df] limit; cbn; [symmetry; apply head_nil | reflexivity].
Qed.

(** C6.  A query with no city alias, no unit-type match and neither
    possession word is parsed to the filter with four null fields (no
    condition on budget words is needed), and with that filter the search
    returns [df.head(limit)]: the first [limit] rows of the table, as they
    are. *)
Theorem C6_unrecognised_query_unfiltered : forall query : str,
  Spec.mentions_city (lower query) = false ->
  Re.search bhk_re (lower query) = None ->
  contains (lit "ready") (lower query) = false ->
  contains (lit "construction") (lower query) = false ->
  parse_query query = Ok (mk_filter None None None None)
  /\ (forall df limit,
        search_properties df (mk_filter None None None None) limit
        = head limit df)
  /\ (forall df limit, (0 <= limit)%Z ->
        search_properties df (mk_filter None None None None) limit
        = firstn (Z.to_nat limit) df).
Proof.
  intros query Hc Hb Hr Hu. split; [|split].
  - rewrite parse_query_eq, Hb, (scan_cities_none _ Hc),
      (extract_possession_none _ Hr Hu). reflexivity.
  - apply search_no_filter.
  - intros df limit Hl. rewrite (search_no_filter df limit).
    unfold head. apply Z.leb_le in Hl. rewrite Hl. reflexivity.
Qed.

Lemma C6_unrecognised_query_unfiltered_witness :
  Spec.mentions_city (lower Sample.plain) = false
  /\ Re.search bhk_re (lower Sample.plain) = None
  /\ contains (lit "ready") (lower Sample.plain) = false
  /\ contains (lit "construction") (lower Sample.plain) = false
  /\ parse_query Sample.plain = Ok (mk_filter None None None None)
  /\ search_properties Sample.table (mk_filter None None None None) 2
     = [Sample.baner; Sample.chembur].
Proof.
  do 4 (split; [reflexivity|]).
  destruct (C6_unrecognised_query_unfiltered Sample.plain
              eq_refl eq_refl eq_refl eq_refl) as (P & S & _).
  split; [exact P|]. rewrite S. reflexivity.
Defined.

(** ** The search is one conjunctive filter followed by [head] *)

Lemma filter_when : forall (b : bool) (p : Listing -> bool) (l : DataFrame),
  (if b then filter p l else l) = filter (fun x => negb b || p x) l.
Proof.
  intros [|] p l; cbn; [reflexivity|].
  induction l as [|x l IH]; cbn; congruence.
Qed.

Lemma filter_filter_and : forall (p q : Listing -> bool) (l : DataFrame),
  filter q (filter p l) = filter (fun x => p x && q x) l.
Proof.
  intros p q. induction l as [|x l IH]; cbn; [reflexivity|].
  destruct (p x); cbn; [destruct (q x)|]; congruence.
Qed.

Lemma filter_all : forall (p : Listing -> bool) (l : DataFrame),
  (forall x, In x l -> p x = true) -> filter p l = l.
Proof.
  intros p. induction l as [|x l IH]; intros H; cbn; [reflexivity|].
  rewrite (H x (or_introl eq_refl)). f_equal. apply IH.
  intros y Hy. apply H. right. exact Hy.
Qed.

Lemma in_firstn : forall (n : nat) (l : DataFrame) (x : Listing),
  In x (firstn n l) -> In x l.
Proof.
  induction n as [|n IH]; intros [|y l] x H; cbn in *; try tauto.
  destruct H as [H|H]; auto.
Qed.

Lemma search_properties_eq : forall df filters limit,
  search_properties df filters limit
  = head limit (filter (Spec.passes filters) df).
Proof.
  intros df filters limit. destruct df as [|row df].
  - cbn. symmetry. apply head_nil.
  - unfold search_properties. cbv zeta.
    rewrite !filter_when, !filter_filter_and. f_equal.
    apply filter_ext. intros x. unfold Spec.passes.
    rewrite !andb_assoc. reflexivity.
Qed.

Lemma head_nonneg : forall limit df,
  (0 <= limit)%Z -> head limit df = firstn (Z.to_nat limit) df.
Proof.
  intros limit df H. unfold head. apply Z.leb_le in H. rewrite H. reflexivity.
Qed.

(** Where every field present is also true as a condition, the predicates
    applied are those of the non-null fields. *)
Lemma passes_non_null : forall filters row,
  truthy_str (city filters) = negb (match city filters with None => true | _ => false end) ->
  truthy_str (bhk filters) = negb (match bhk filters with None => true | _ => false end) ->
  truthy_budget (budget_max filters) = negb (match budget_max filters with None => true | _ => false end) ->
  truthy_str (possession filters) = negb (match possession filters with None => true | _ => false end) ->
  Spec.passes filters row = Spec.holds_non_null filters row.
Proof.
  intros [c b m p] row. unfold Spec.passes, Spec.holds_non_null,
    city_mask, bhk_mask, budget_mask, possession_mask. cbn.
  intros -> -> -> ->. destruct c, b, m, p; reflexivity.
Qed.

(** C3, the claim as it stands, fails twice.  A budget of zero is not null,
    yet the search does not apply it and returns a row priced 9,000,000; and
    with the limit -1 the search returns three rows. *)
Lemma C3_counterexample :
  (search_properties [Sample.baner] (mk_filter None None (Some zero) None) 10
   = [Sample.baner]
   /\ Spec.holds_non_null (mk_filter None None (Some zero) None) Sample.baner
      = false)
  /\ (Z.of_nat (List.length (search_properties Sample.table Spec.no_filter (-1)))
      > -1)%Z.
Proof.
  repeat split.
Qed.

(** C3 (amended).  For a limit that is not negative and a filter whose city,
    when present, is a plain pattern (as [str_contains] takes it), the result
    has at most [limit] rows, every row in it satisfies the predicate of
    every filter field that is true as a condition (city found in the full
    address without regard to case, unit type equal, price at most the
    budget, status equal), and the result is the first [limit] rows, in table
    order, of the rows of the table that satisfy them. *)
Theorem C3_search_sound_ordered_limited : forall df filters limit,
  (0 <= limit)%Z ->
  Spec.literal_city filters = true ->
  (Z.of_nat (List.length (search_properties df filters limit)) <= limit)%Z
  /\ Forall (fun row => Spec.passes filters row = true)
       (search_properties df filters limit)
  /\ search_properties df filters limit
     = firstn (Z.to_nat limit) (filter (Spec.passes filters) df).
Proof.
  intros df filters limit Hl _.
  rewrite search_properties_eq, (head_nonneg _ Hl).
  split; [|split; [|reflexivity]].
  - pose proof (firstn_le_length (Z.to_nat limit)
                  (filter (Spec.passes filters) df)). lia.
  - apply Forall_forall. intros row H.
    apply in_firstn, filter_In in H. tauto.
Qed.

Lemma C3_search_sound_ordered_limited_witness :
  (0 <= 1)%Z
  /\ Spec.literal_city Sample.pune_3bhk = true
  /\ search_properties Sample.table Sample.pune_3bhk 1 = [Sample.wakad]
  /\ Spec.passes Sample.pune_3bhk Sample.wakad = true.
Proof.
  split; [lia|]. split; [reflexivity|].
  destruct (C3_search_sound_ordered_limited Sample.table Sample.pune_3bhk
              (limit := 1) ltac:(lia) eq_refl) as (_ & _ & E).
  split; [rewrite E|]; reflexivity.
Defined.

(** C9, the claim as it stands, fails for a negative limit: [head(-1)] drops
    the last row each time it is applied. *)
Lemma C9_counterexample :
  search_properties Sample.table Spec.no_filter (-1)
  = [Sample.baner; Sample.chembur; Sample.wakad]
  /\ search_properties (search_properties Sample.table Spec.no_filter (-1))
       Spec.no_filter (-1)
     = [Sample.baner; Sample.chembur]
  /\ search_properties (search_properties Sample.table Spec.no_filter (-1))
       Spec.no_filter (-1)
     <> search_properties Sample.table Spec.no_filter (-1).
Proof.
  split; [reflexivity|]. split; [reflexivity|].
  intros H. apply (f_equal (@List.length Listing)) in H. discriminate H.
Qed.

(** C9 (amended).  For a limit that is not negative, searching the result of
    a search again with the same filter and limit returns it unchanged. *)
Theorem C9_search_idempotent : forall df filters limit,
  (0 <= limit)%Z ->
  search_properties (search_properties df filters limit) filters limit
  = search_properties df filters limit.
Proof.
  intros df filters limit Hl.
  rewrite !search_properties_eq, !(head_nonneg _ Hl).
  rewrite filter_all.
  - rewrite firstn_firstn, Nat.min_id. reflexivity.
  - intros row H. apply in_firstn, filter_In in H. tauto.
Qed.

Lemma C9_search_idempotent_witness :
  (0 <= 2)%Z
  /\ search_properties (search_properties Sample.table Sample.pune_3bhk 2)
       Sample.pune_3bhk 2
     = search_properties Sample.table Sample.pune_3bhk 2.
Proof.
  split; [lia|].
  apply (C9_search_idempotent Sample.table Sample.pune_3bhk (limit := 2)).
  lia.
Defined.

(** C10 (defect in the code).  The claim's example does not go through:
    "under 0 cr" matches the crore pattern as the specification words it,
    with the number 0 and so the budget 0.0, but the file's pattern cannot
    match and the query is parsed with no budget.  The behaviour the claim
    describes for a budget of zero holds: the search skips the budget
    predicate, returning what it returns for the same filter without a
    budget, so with the other fields null it returns [df.head(limit)], rows
    of every price; and the summary has no budget clause. *)
Theorem C10_zero_budget_is_skipped :
  (Re.search Spec.cr_pattern (lower Sample.zero_crore) = Some (lit "0")
   /\ option_map (fun x => mul x (of_Z 10000000)) (float_of_str (lit "0"))
      = Some zero
   /\ parse_query Sample.zero_crore = Ok (mk_filter None None None None))
  /\ (forall (filters : QueryFilter) (s : bool),
        budget_max filters = Some (S754_zero s) ->
        (forall df limit,
            search_properties df filters limit
            = search_properties df (Spec.without_budget filters) limit)
        /\ (forall df limit,
              city filters = None -> bhk filters = None ->
              possession filters = None ->
              search_properties df filters limit = head limit df)
        /\ (forall results,
              generate_summary results filters
              = generate_summary results (Spec.without_budget filters))).
Proof.
  split; [repeat split|].
  intros [c b m p] s H. cbn in H. subst m. repeat split.
  intros df limit. cbn in *. intros -> -> ->.
  apply search_no_filter.
Qed.

Lemma C10_zero_budget_is_skipped_witness :
  budget_max Sample.zero_budget = Some (S754_zero false)
  /\ search_properties Sample.table Sample.zero_budget 10
     = [Sample.baner; Sample.wakad]
  /\ filter (fun row => leb (price row) zero) Sample.table = []
  /\ generate_summary [Sample.baner; Sample.wakad] Sample.zero_budget
     = lit "Found 2 properties in Pune. Average price is around "
       ++ currency ++ lit "1.70 Cr.".
Proof.
  split; [reflexivity|].
  destruct (proj2 C10_zero_budget_is_skipped Sample.zero_budget false eq_refl)
    as (S & _ & G).
  split; [rewrite S; reflexivity|]. split; [reflexivity|].
  rewrite G. reflexivity.
Defined.

(** ** Comparison of floats *)

Lemma SFcompare_antisym : forall x y : float,
  SFcompare y x = option_map CompOpp (SFcompare x y).
Proof.
  intros [sx|sx| |sx mx ex] [sy|sy| |sy my ey]; cbn;
    try (destruct sx; reflexivity); try (destruct sy; reflexivity);
    try reflexivity.
  - destruct sx, sy; reflexivity.
  - destruct sx, sy; cbn; try reflexivity;
      rewrite (Z.compare_antisym ex ey); destruct (ex ?= ey)%Z; cbn;
      try reflexivity;
      change (Pos.compare_cont Eq my mx) with (my ?= mx)%positive;
      change (Pos.compare_cont Eq mx my) with (mx ?= my)%positive;
      rewrite (Pos.compare_antisym mx my);
      destruct (mx ?= my)%positive; reflexivity.
Qed.

Lemma ltb_not_leb : forall x y : float, ltb x y = true -> leb y x = false.
Proof.
  intros x y. unfold ltb, leb, SFltb, SFleb.
  rewrite (SFcompare_antisym x y).
  destruct (SFcompare x y) as [[| |]|]; cbn; congruence.
Qed.

Lemma leb_not_ltb : forall x y : float, leb x y = true -> ltb y x = false.
Proof.
  intros x y. unfold ltb, leb, SFltb, SFleb.
  rewrite (SFcompare_antisym x y).
  destruct (SFcompare x y) as [[| |]|]; cbn; congruence.
Qed.

(** A float that is at least ten million is present and positive. *)
Lemma crore_or_more_positive : forall p : float,
  leb (of_Z 10000000) p = true -> notna p = true /\ ltb zero p = true.
Proof.
  intros p. remember (of_Z 10000000) as c eqn:Hc. vm_compute in Hc. subst c.
  destruct p as [s|s| |s m e]; cbn; try discriminate.
  - destruct s; [discriminate|]. auto.
  - destruct s; [discriminate|]. auto.
Qed.

(** ** Two decimals *)

(** [f"{x:.2f}"] of a float that is not NaN or infinite is a sign, an integer
    part, a full stop and exactly two digits. *)
Lemma format_f_two_decimals : forall x : float,
  (exists s, x = S754_zero s) \/ (exists s m e, x = S754_finite s m e) ->
  exists sg ip fp,
    format_f 2 x = sg ++ ip ++ lit "." ++ fp
    /\ List.length fp = 2%nat /\ forallb is_digit fp = true.
Proof.
  assert (F : forall n, exists ip fp,
               fixed 2 n = ip ++ lit "." ++ fp
               /\ List.length fp = 2%nat /\ forallb is_digit fp = true).
  { intros n. unfold fixed.
    set (k := Z.to_N (n mod 10 ^ Z.of_nat 2)).
    assert (Hk : (k < 100)%N).
    { unfold k. change (10 ^ Z.of_nat 2)%Z with 100%Z.
      pose proof (Z.mod_pos_bound n 100 ltac:(lia)). lia. }
    eexists _, (pad_zeros 2 (str_of_N k)). split; [reflexivity|].
    assert (T : forallb (fun i =>
                  ((List.length (pad_zeros 2 (str_of_N (N.of_nat i))) =? 2)%nat
                   && forallb is_digit (pad_zeros 2 (str_of_N (N.of_nat i)))))
                  (seq 0 100) = true) by (vm_compute; reflexivity).
    rewrite forallb_forall in T.
    specialize (T (N.to_nat k)). rewrite N2Nat.id in T.
    assert (In (N.to_nat k) (seq 0 100)) as I by (apply in_seq; lia).
    apply T, andb_true_iff in I as [L D].
    split; [apply Nat.eqb_eq, L | exact D]. }
  intros x [[s ->]|(s & m & e & ->)]; cbn [format_f].
  - destruct (F 0%Z) as (ip & fp & E & L & D).
    exists (sign s), ip, fp. rewrite E. auto.
  - destruct (F (scaled 2 m e)) as (ip & fp & E & L & D).
    exists (sign s), ip, fp. rewrite E. auto.
Qed.

(** C8.  The price line of the card has three buckets: a price of at least
    10,000,000 is shown in crores with two decimals, a price strictly between
    0 and 10,000,000 in lakhs with two decimals, and a missing or
    non-positive price as "Price on request". *)
Theorem C8_card_price_buckets : forall row : Listing,
  (leb (of_Z 10000000) (price row) = true ->
     price_str row
     = currency ++ format_f 2 (div (price row) (of_Z 10000000)) ++ lit " Cr")
  /\ (ltb zero (price row) = true -> ltb (price row) (of_Z 10000000) = true ->
        price_str row
        = currency ++ format_f 2 (div (price row) (of_Z 100000)) ++ lit " L")
  /\ (isna (price row) = true \/ leb (price row) zero = true ->
        price_str row = lit "Price on request").
Proof.
  intros row. unfold price_str. cbv zeta. repeat split.
  - intros H. destruct (crore_or_more_positive _ H) as [-> ->].
    rewrite H. reflexivity.
  - intros Hpos Hlt. rewrite Hpos, (ltb_not_leb _ _ Hlt).
    destruct (price row); try discriminate; reflexivity.
  - intros [H|H].
    + unfold notna. rewrite H. reflexivity.
    + rewrite (leb_not_ltb _ _ H), andb_false_r. reflexivity.
Qed.

Lemma C8_card_price_buckets_witness :
  leb (of_Z 10000000) (price Sample.wakad) = true
  /\ price_str Sample.wakad = currency ++ lit "2.50 Cr"
  /\ ltb zero (price Sample.baner) = true
  /\ ltb (price Sample.baner) (of_Z 10000000) = true
  /\ price_str Sample.baner = currency ++ lit "90.00 L"
  /\ isna (price Sample.unpriced) = true
  /\ price_str Sample.unpriced = lit "Price on request".
Proof.
  split; [reflexivity|]. split.
  { rewrite (proj1 (C8_card_price_buckets Sample.wakad) eq_refl). reflexivity. }
  split; [reflexivity|]. split; [reflexivity|]. split.
  { rewrite (proj1 (proj2 (C8_card_price_buckets Sample.baner)) eq_refl eq_refl).
    reflexivity. }
  split; [reflexivity|].
  exact (proj2 (proj2 (C8_card_price_buckets Sample.unpriced))
           (or_introl eq_refl)).
Defined.

(** ** The summary *)

Lemma length_zero_nil : forall (A : Type) (l : list A),
  (List.length l =? 0)%nat = false <-> l <> [].
Proof.
  intros A [|x l]; cbn; split; intros H; congruence.
Qed.

(** The splitting of [pairwise_sum] never runs out of fuel: any fuel of at
    least the length of the list gives the same sum. *)
Lemma pairwise_sum_fuel_any : forall fuel1 fuel2 a,
  (List.length a <= fuel1)%nat -> (List.length a <= fuel2)%nat ->
  pairwise_sum fuel1 a = pairwise_sum fuel2 a.
Proof.
  induction fuel1 as [|fuel1 IH]; intros fuel2 a H1 H2.
  - destruct a; [|cbn in H1; lia]. destruct fuel2; reflexivity.
  - destruct fuel2 as [|fuel2].
    + destruct a; [|cbn in H2; lia]. reflexivity.
    + cbn [pairwise_sum].
      destruct (List.length a <? 8)%nat eqn:A; [reflexivity|].
      destruct (List.length a <=? 128)%nat eqn:B; [reflexivity|].
      apply Nat.ltb_ge in A. apply Nat.leb_gt in B.
      set (n := List.length a) in *.
      set (n2 := (n / 2 - (n / 2) mod 8)%nat).
      assert (N2 : (1 <= n2 <= n - 1)%nat).
      { unfold n2.
        pose proof (Nat.mod_upper_bound (n / 2) 8 ltac:(lia)).
        pose proof (Nat.div_mod_eq n 2).
        pose proof (Nat.mod_upper_bound n 2 ltac:(lia)). lia. }
      f_equal; apply IH; rewrite ?length_firstn, ?length_skipn; fold n; lia.
Qed.

Lemma pairwise_sum_fuel : forall fuel a,
  (List.length a <= fuel)%nat ->
  pairwise_sum fuel a = pairwise_sum (List.length a) a.
Proof.
  intros fuel a H. apply pairwise_sum_fuel_any; [exact H | lia].
Qed.

(** C7 (defect in the code).  For a result set that is not empty: if some
    result has a price, the summary is the first sentence followed by
    " Average price is around <average>." where the average is the mean of
    the prices present, their sum as numpy takes it over their count (the
    prices not all being -0.0, where the sign of the sum depends on the
    numpy at hand), and is shown in crores with two decimals when it is at
    least 10,000,000; if no result has a price, the summary is the first
    sentence alone.  Prices 9,000,000 and 11,000,000 have the average
    10,000,000, shown with the digits "1.00 Cr"; but the characters written
    before them are the three of [currency], so the text is not the
    "1.00 Cr" with a rupee sign the claim states. *)
Theorem C7_average_sentence :
  (forall (results : DataFrame) (filters : QueryFilter),
      results <> [] ->
      let prices := dropna (map price results) in
      let avg := mean prices in
      (prices <> [] ->
       forallb negative_zero prices = false ->
         generate_summary results filters
         = summary_head (List.length results) filters
           ++ lit " Average price is around " ++ avg_str avg ++ lit "."
         /\ (leb (of_Z 10000000) avg = true ->
               avg_str avg
               = currency ++ format_f 2 (div avg (of_Z 10000000))
                 ++ lit " Cr"))
      /\ (prices = [] ->
            generate_summary results filters
            = summary_head (List.length results) filters))
  /\ mean [of_Z 9000000; of_Z 11000000] = of_Z 10000000
  /\ avg_str (mean Sample2.eight_prices) = currency ++ lit "1.00 Cr"
  /\ generate_summary [Sample.baner; Sample.chembur] Spec.no_filter
     = lit "Found 2 properties. Average price is around "
       ++ [8218; 199; 960]%N ++ lit "1.00 Cr."
  /\ generate_summary [Sample.baner; Sample.chembur] Spec.no_filter
     <> lit "Found 2 properties. Average price is around "
        ++ [rupee_sign] ++ lit "1.00 Cr.".
Proof.
  split; [|split; [reflexivity|split; [reflexivity|split; [reflexivity|]]]].
  - intros results filters Hne prices avg.
    apply length_zero_nil in Hne.
    unfold generate_summary. rewrite Hne. fold prices. split.
    + intros Hp _. destruct prices as [|x xs] eqn:E; [congruence|].
      split; [reflexivity|].
      intros Ha. unfold avg_str. rewrite Ha. reflexivity.
    + intros ->. reflexivity.
  - intros H. vm_compute in H. discriminate H.
Qed.

Lemma C7_average_sentence_witness :
  [Sample.baner; Sample.chembur] <> []
  /\ dropna (map price [Sample.baner; Sample.chembur]) <> []
  /\ generate_summary [Sample.baner; Sample.chembur] Spec.no_filter
     = lit "Found 2 properties." ++ lit " Average price is around "
       ++ currency ++ lit "1.00 Cr" ++ lit "."
  /\ [Sample.unpriced] <> []
  /\ dropna (map price [Sample.unpriced]) = []
  /\ generate_summary [Sample.unpriced] Spec.no_filter
     = lit "Found 1 property.".
Proof.
  split; [discriminate|]. split; [discriminate|]. split.
  { destruct (proj1 C7_average_sentence [Sample.baner; Sample.chembur]
                Spec.no_filter ltac:(discriminate)) as [H _].
    destruct (H ltac:(discriminate) eq_refl) as [E _]. rewrite E.
    reflexivity. }
  split; [discriminate|]. split; [reflexivity|].
  destruct (proj1 C7_average_sentence [Sample.unpriced]
              Spec.no_filter ltac:(discriminate)) as [_ H].
  rewrite (H eq_refl). reflexivity.
Defined.

(* ================================================================== *)
(** * Further properties *)

(** ** What a match of the unit-type pattern looks like *)

Lemma many_inv_text : forall a k s g,
  Re.many a k s = Some g ->
  exists pre s' g',
    s = pre ++ s' /\ forallb (Re.cls a) pre = true /\ k s' = Some g'
    /\ g = (if Re.captured a then pre else []) ++ g'.
Proof.
  intros a k. induction s as [|c s IH]; intros g H; cbn [Re.many] in H.
  - exists [], [], g. destruct (Re.captured a); auto.
  - destruct (Re.cls a c) eqn:C.
    + destruct (Re.many a k s) as [g1|] eqn:M.
      * destruct (IH _ eq_refl) as (pre & s' & g' & -> & F & K & ->).
        injection H as <-. exists (c :: pre), s', g'.
        cbn [forallb]. rewrite C, F. unfold Re.keep.
        destruct (Re.captured a); auto.
      * exists [], (c :: s), g. destruct (Re.captured a); auto.
    + exists [], (c :: s), g. destruct (Re.captured a); auto.
Qed.

Lemma match_word_inv : forall w s g,
  Re.match_here (Re.word w) s = Some g ->
  g = [] /\ exists rest, s = w ++ rest.
Proof.
  induction w as [|c w IH]; intros s g H.
  - cbn in H. injection H as <-. split; [reflexivity|]. exists s. reflexivity.
  - change (Re.word (c :: w)) with (Re.chr c :: Re.word w) in H.
    cbn [Re.match_here Re.qt Re.chr] in H. unfold Re.one in H.
    destruct s as [|x s]; [discriminate H|]. cbn [Re.cls Re.chr] in H.
    destruct (x =? c)%N eqn:E; [|discriminate H].
    destruct (Re.match_here (Re.word w) s) as [g'|] eqn:M; [|discriminate H].
    apply N.eqb_eq in E. subst x. cbn in H. injection H as <-.
    destruct (IH _ _ M) as (-> & rest & ->).
    split; [reflexivity|]. exists rest. reflexivity.
Qed.

Lemma search_inv : forall r s g,
  Re.search r s = Some g ->
  exists pre s', s = pre ++ s' /\ Re.match_here r s' = Some g.
Proof.
  intros r. induction s as [|c s IH]; intros g H; cbn [Re.search] in H.
  - destruct (Re.match_here r []) eqn:M; [|discriminate].
    injection H as <-. exists [], []. auto.
  - destruct (Re.match_here r (c :: s)) eqn:M.
    + injection H as <-. exists [], (c :: s). auto.
    + destruct (IH _ H) as (pre & s' & -> & K).
      exists (c :: pre), s'. auto.
Qed.

Lemma bhk_match_inv : forall s g,
  Re.match_here bhk_re s = Some g ->
  exists ws rest,
    g <> [] /\ forallb is_digit g = true /\ forallb is_space ws = true
    /\ s = g ++ ws ++ lit "bhk" ++ rest.
Proof.
  intros s g H. unfold bhk_re in H.
  change ([Re.group_plus is_digit; Re.star is_space] ++ Re.word (lit "bhk"))
    with (Re.group_plus is_digit :: Re.star is_space :: Re.word (lit "bhk"))
    in H.
  cbn [Re.match_here Re.qt Re.group_plus Re.cls] in H.
  destruct s as [|c s]; [discriminate|].
  destruct (is_digit c) eqn:D; [|discriminate].
  match type of H with
  | option_map _ (Re.many ?a ?k s) = _ =>
      destruct (Re.many a k s) as [g1|] eqn:M; [|discriminate];
      apply many_inv_text in M as (ds & s1 & g2 & -> & Fd & K & ->)
  end.
  cbn in H. injection H as <-. cbn [Re.cls Re.captured] in *.
  cbn [Re.qt Re.star] in K.
  apply many_inv_text in K as (ws & s2 & g3 & -> & Fw & K & ->).
  apply match_word_inv in K as (-> & rest & ->).
  cbn [Re.cls Re.captured] in *.
  exists ws, rest. rewrite !app_nil_r. split; [discriminate|].
  split; [cbn; rewrite D; exact Fd|]. split; [exact Fw|].
  reflexivity.
Qed.

(** X1.  The unit type [parse_query] returns is one or more digits followed
    by "BHK", and the lower-cased query holds these digits, then white space
    or nothing, then "bhk". *)
Theorem X1_bhk_is_digits_before_bhk : forall query f b,
  parse_query query = Ok f ->
  bhk f = Some b ->
  exists ds ws pre post,
    b = ds ++ lit "BHK"
    /\ ds <> [] /\ forallb is_digit ds = true
    /\ forallb is_space ws = true
    /\ lower query = pre ++ ds ++ ws ++ lit "bhk" ++ post.
Proof.
  intros query f b P B. rewrite parse_query_eq in P. injection P as <-.
  cbn [bhk] in B.
  destruct (Re.search bhk_re (lower query)) as [g|] eqn:S; [|discriminate].
  injection B as <-.
  apply search_inv in S as (pre & s' & E & M).
  apply bhk_match_inv in M as (ws & rest & Hne & Fd & Fw & ->).
  exists g, ws, pre, rest. auto.
Qed.

Lemma X1_bhk_is_digits_before_bhk_witness :
  parse_query Sample2.three_bhk
  = Ok (mk_filter None (Some (lit "3BHK")) None None)
  /\ exists ds ws pre post,
       lit "3BHK" = ds ++ lit "BHK"
       /\ ds <> [] /\ forallb is_digit ds = true
       /\ forallb is_space ws = true
       /\ lower Sample2.three_bhk = pre ++ ds ++ ws ++ lit "bhk" ++ post.
Proof.
  split; [reflexivity|].
  exact (X1_bhk_is_digits_before_bhk Sample2.three_bhk eq_refl eq_refl).
Defined.

(** ** The city *)

(** X2.  [parse_query] returns a city exactly when some alias occurs in the
    lower-cased query, and the city is then "Pune", "Mumbai" or "Bangalore",
    a pattern of letters only. *)
Theorem X2_city_found_iff_alias : forall query f,
  parse_query query = Ok f ->
  (city f = None <-> Spec.mentions_city (lower query) = false)
  /\ (forall c, city f = Some c ->
        c = lit "Pune" \/ c = lit "Mumbai" \/ c = lit "Bangalore")
  /\ Spec.literal_city f = true.
Proof.
  intros query f P. rewrite parse_query_eq in P. injection P as <-.
  unfold Spec.literal_city, Spec.mentions_city. cbn [city].
  generalize (lower query). intros q. cbn.
  repeat match goal with
         | |- context [contains ?v q] => destruct (contains v q); cbn
         end;
    (split; [split; congruence|]); (split; [|reflexivity]);
    intros c H; try discriminate; injection H as <-; auto.
Qed.

Lemma X2_city_found_iff_alias_witness :
  parse_query Sample.two_cities
  = Ok (mk_filter (Some (lit "Mumbai")) None None None)
  /\ Spec.mentions_city (lower Sample.two_cities) = true
  /\ Spec.literal_city (mk_filter (Some (lit "Mumbai")) None None None) = true.
Proof.
  split; [reflexivity|]. split; [reflexivity|].
  exact (proj2 (proj2 (X2_city_found_iff_alias Sample.two_cities eq_refl))).
Defined.

(** ** The possession status *)

(** X3.  "ready" decides first: a query holding it is READY_TO_MOVE whether
    or not it also holds "construction"; without "ready", "construction"
    gives UNDER_CONSTRUCTION; without both the status is null.  The longer
    phrases the code also looks for never change the outcome. *)
Theorem X3_ready_before_construction : forall query f,
  parse_query query = Ok f ->
  (contains (lit "ready") (lower query) = true ->
     possession f = Some READY_TO_MOVE)
  /\ (contains (lit "ready") (lower query) = false ->
      contains (lit "construction") (lower query) = true ->
        possession f = Some UNDER_CONSTRUCTION)
  /\ (contains (lit "ready") (lower query) = false ->
      contains (lit "construction") (lower query) = false ->
        possession f = None).
Proof.
  intros query f P. rewrite parse_query_eq in P. injection P as <-.
  cbn [possession]. generalize (lower query). intros q.
  split; [|split].
  - intros R. unfold extract_possession. rewrite R. reflexivity.
  - intros R C. unfold extract_possession.
    assert (R2 : contains (lit "ready to move") q = false)
      by exact (contains_app_false (lit "ready") (lit " to move") q R).
    rewrite R, R2, C. reflexivity.
  - apply extract_possession_none.
Qed.

Lemma X3_ready_before_construction_witness :
  contains (lit "ready") (lower Sample2.ready_or_not) = true
  /\ contains (lit "construction") (lower Sample2.ready_or_not) = true
  /\ parse_query Sample2.ready_or_not
     = Ok (mk_filter None None None (Some READY_TO_MOVE)).
Proof.
  split; [reflexivity|]. split; [reflexivity|].
  pose proof (proj1 (X3_ready_before_construction Sample2.ready_or_not eq_refl)
                eq_refl) as H.
  cbn [possession] in H. reflexivity.
Defined.

(** ** Case *)

Lemma lower_char_idempotent : forall c, lower_char (lower_char c) = lower_char c.
Proof.
  intros c. unfold lower_char at 2.
  destruct (between 65 90 c || (between 192 222 c && negb (c =? 215)%N)) eqn:U.
  - assert (R : (65 <= c <= 90 \/ 192 <= c <= 222)%N).
    { unfold between in U.
      rewrite orb_true_iff, !andb_true_iff, !N.leb_le in U. lia. }
    unfold lower_char.
    assert (V : between 65 90 (c + 32)
                || (between 192 222 (c + 32) && negb (c + 32 =? 215)%N) = false).
    { unfold between.
      rewrite orb_false_iff, !andb_false_iff, !N.leb_gt. lia. }
    rewrite V, U. reflexivity.
  - unfold lower_char. rewrite !U. reflexivity.
Qed.

Lemma lower_idempotent : forall s, lower (lower s) = lower s.
Proof.
  induction s as [|c s IH]; cbn; [reflexivity|].
  rewrite lower_char_idempotent. f_equal. exact IH.
Qed.

Lemma lower_upper_char : forall c,
  between 97 122 c = true -> lower_char (upper_char c) = c.
Proof.
  intros c H. unfold upper_char. rewrite H. unfold between in H.
  apply andb_true_iff in H as [H1 H2].
  apply N.leb_le in H1, H2. unfold lower_char, between.
  repeat match goal with
         | |- context [(?a <=? ?b)%N] => destruct (N.leb_spec a b)
         | |- context [(?a =? ?b)%N] => destruct (N.eqb_spec a b)
         end; cbn; lia.
Qed.

Lemma lower_upper : forall s, lower (map upper_char s) = lower s.
Proof.
  induction s as [|c s IH]; cbn; [reflexivity|]. f_equal; [|exact IH].
  unfold upper_char at 1. destruct (between 97 122 c) eqn:B; [|reflexivity].
  pose proof (lower_upper_char c B) as E. unfold upper_char in E.
  rewrite B in E. rewrite E.
  unfold between in B. apply andb_true_iff in B as [H1 H2].
  apply N.leb_le in H1, H2. unfold lower_char, between.
  repeat match goal with
         | |- context [(?a <=? ?b)%N] => destruct (N.leb_spec a b)
         | |- context [(?a =? ?b)%N] => destruct (N.eqb_spec a b)
         end; cbn; lia.
Qed.

(** X4.  The parser does not see the case of the query: the query, its
    lower-casing and its upper-casing (of the letters a-z) are parsed to the
    same filter. *)
Theorem X4_parse_query_ignores_case : forall query,
  parse_query (lower query) = parse_query query
  /\ parse_query (map upper_char query) = parse_query query.
Proof.
  intros query. unfold parse_query.
  rewrite lower_idempotent, lower_upper. split; reflexivity.
Qed.

(** ** A parsed filter is applied in full *)

Lemma app_nonempty : forall (a b : str), nonempty b = true -> nonempty (a ++ b) = true.
Proof.
  intros [|x a] b H; [exact H | reflexivity].
Qed.

Lemma parsed_filter_applied : forall query f,
  parse_query query = Ok f ->
  Spec.literal_city f = true
  /\ forall row, Spec.passes f row = Spec.holds_non_null f row.
Proof.
  intros query f P. rewrite parse_query_eq in P. injection P as <-.
  split.
  - unfold Spec.literal_city. cbn [city]. generalize (lower query). intros q.
    cbn.
    repeat match goal with
           | |- context [contains ?v q] => destruct (contains v q); cbn
           end; reflexivity.
  - intros row. apply passes_non_null; cbn [city bhk budget_max possession].
    + generalize (lower query). intros q. cbn.
      repeat match goal with
             | |- context [contains ?v q] => destruct (contains v q); cbn
             end; reflexivity.
    + destruct (Re.search bhk_re (lower query)); [|reflexivity].
      cbn [truthy_str]. rewrite app_nonempty; reflexivity.
    + reflexivity.
    + unfold extract_possession.
      destruct (_ || _); [reflexivity|]. destruct (_ || _); reflexivity.
Qed.

Lemma in_head : forall limit (l : DataFrame) row, In row (head limit l) -> In row l.
Proof.
  intros limit l row. unfold head.
  destruct (0 <=? limit)%Z; apply in_firstn.
Qed.

Lemma in_search_passes : forall df f limit row,
  In row (search_properties df f limit) ->
  In row df /\ Spec.passes f row = true.
Proof.
  intros df f limit row H. rewrite search_properties_eq in H.
  apply in_head, filter_In in H. exact H.
Qed.

(** X5.  Every filter [parse_query] returns has only fields the search
    applies: each field present is true as a condition, and the city is a
    plain pattern.  So every row returned for a parsed filter, with whatever
    limit, satisfies the predicate of every field that is not null. *)
Theorem X5_parsed_filter_holds_on_results : forall query f df limit row,
  parse_query query = Ok f ->
  In row (search_properties df f limit) ->
  Spec.literal_city f = true
  /\ Spec.holds_non_null f row = true
  /\ (forall c, city f = Some c -> str_contains c (fullAddress row) = true)
  /\ (forall b, bhk f = Some b -> type row = Some b)
  /\ (forall p, possession f = Some p -> status row = Some p).
Proof.
  intros query f df limit row P H.
  destruct (parsed_filter_applied query P) as [L E].
  apply in_search_passes in H as [_ H]. rewrite E in H.
  split; [exact L|]. split; [exact H|].
  unfold Spec.holds_non_null in H.
  repeat (apply andb_true_iff in H; destruct H as [H ?]).
  repeat split.
  - intros c Hc. rewrite Hc in H. exact H.
  - intros b Hb.
    match goal with X : match bhk f with _ => _ end = true |- _ =>
      rewrite Hb in X; unfold cell_eqb in X; destruct (type row); [|discriminate X];
      unfold str_eqb in X; destruct (list_eq_dec N.eq_dec s b); [subst; reflexivity | discriminate X]
    end.
  - intros p Hp.
    match goal with X : match possession f with _ => _ end = true |- _ =>
      rewrite Hp in X; unfold cell_eqb in X; destruct (status row); [|discriminate X];
      unfold str_eqb in X; destruct (list_eq_dec N.eq_dec s p); [subst; reflexivity | discriminate X]
    end.
Qed.

Lemma X5_parsed_filter_holds_on_results_witness :
  parse_query (lit "3bhk in pune")
  = Ok (mk_filter (Some (lit "Pune")) (Some (lit "3BHK")) None None)
  /\ In Sample.wakad
       (search_properties Sample.table
          (mk_filter (Some (lit "Pune")) (Some (lit "3BHK")) None None) 10)
  /\ type Sample.wakad = Some (lit "3BHK").
Proof.
  split; [reflexivity|].
  assert (I : In Sample.wakad
                (search_properties Sample.table
                   (mk_filter (Some (lit "Pune")) (Some (lit "3BHK")) None None)
                   10)) by (left; reflexivity).
  split; [exact I|].
  exact (proj1 (proj2 (proj2 (proj2
           (X5_parsed_filter_holds_on_results (lit "3bhk in pune")
              Sample.table 10 Sample.wakad eq_refl I))))
           (lit "3BHK") eq_refl).
Defined.

(** ** The result as a part of the table *)

Lemma Subseq_refl : forall (A : Type) (l : list A), Subseq l l.
Proof.
  induction l as [|x l IH]; [apply Subseq_nil | apply Subseq_keep, IH].
Qed.

Lemma Subseq_nil_l : forall (A : Type) (l : list A), Subseq [] l.
Proof.
  induction l as [|x l IH]; [apply Subseq_nil | apply Subseq_skip, IH].
Qed.

Lemma Subseq_trans : forall (A : Type) (l2 l3 : list A),
  Subseq l2 l3 -> forall l1, Subseq l1 l2 -> Subseq l1 l3.
Proof.
  induction 1 as [|x l2 l3 H IH|x l2 l3 H IH]; intros l1 H1.
  - exact H1.
  - apply Subseq_skip, IH, H1.
  - inversion H1; subst.
    + apply Subseq_skip, IH. assumption.
    + apply Subseq_keep, IH. assumption.
Qed.

Lemma Subseq_filter : forall (A : Type) (p : A -> bool) (l : list A),
  Subseq (filter p l) l.
Proof.
  induction l as [|x l IH]; cbn; [apply Subseq_nil|].
  destruct (p x); [apply Subseq_keep | apply Subseq_skip]; exact IH.
Qed.

Lemma Subseq_firstn : forall (A : Type) (n : nat) (l : list A),
  Subseq (firstn n l) l.
Proof.
  induction n as [|n IH]; intros [|x l]; cbn.
  - apply Subseq_nil.
  - apply Subseq_nil_l.
  - apply Subseq_nil.
  - apply Subseq_keep, IH.
Qed.


Lemma Subseq_head : forall limit (l : DataFrame), Subseq (head limit l) l.
Proof.
  intros limit l. unfold head. destruct (0 <=? limit)%Z; apply Subseq_firstn.
Qed.

Lemma search_Subseq : forall df f limit,
  Subseq (search_properties df f limit) df.
Proof.
  intros df f limit. rewrite search_properties_eq.
  eapply Subseq_trans; [apply Subseq_filter | apply Subseq_head].
Qed.



(** ** The limit *)



(** ** Missing cells *)



(** ** The summary *)

Lemma summary_head_starts : forall count filters,
  exists rest, summary_head count filters = lit "Found " ++ rest.
Proof.
  intros count [c b m p]. unfold summary_head. cbn [city bhk budget_max].
  destruct b as [b|]; [destruct (nonempty b)|];
    (destruct c as [c|]; [destruct (nonempty c)|]);
    (destruct m as [m|]; [destruct (truthy m)|]);
    cbn; eexists; reflexivity.
Qed.

(** X9.  The summary is the "No properties found" message exactly when there
    is no result; for a result set that is not empty it is a text starting
    with "Found ". *)
Theorem X9_no_results_message_iff_empty : forall results filters,
  (generate_summary results filters = no_results <-> results = [])
  /\ (results <> [] ->
        exists rest, generate_summary results filters = lit "Found " ++ rest).
Proof.
  intros results filters.
  assert (F : results <> [] ->
              exists rest,
                generate_summary results filters = lit "Found " ++ rest).
  { destruct results as [|row results]; [congruence|]. intros _.
    unfold generate_summary. cbn [List.length Nat.eqb].
    destruct (summary_head_starts (S (List.length results)) filters)
      as [rest E].
    rewrite E. destruct (_ <? _)%nat.
    - eexists. rewrite <- app_assoc. reflexivity.
    - eexists. reflexivity. }
  split; [|exact F]. split; [|intros ->; reflexivity].
  destruct results as [|row results]; [reflexivity|]. intros H.
  destruct F as [rest E]; [discriminate|]. rewrite E in H. discriminate H.
Qed.

(** ** The card *)

Lemma amenities_cases : forall row a,
  amenities row = Some a ->
  exists l p b,
    a = l ++ p ++ b
    /\ (l = [] /\ lift row <> Some true \/ l = [lit "Lift"] /\ lift row = Some true)
    /\ (p = [] /\ parkingType row = None
        \/ p = [lit "Parking"] /\ parkingType row <> None)
    /\ (b = [] /\ notna (balcony row) && ltb zero (balcony row) = false
        \/ (exists n, b = [str_of_Z n ++ lit " Balcony"])
           /\ notna (balcony row) && ltb zero (balcony row) = true).
Proof.
  intros row a H. unfold amenities in H. cbv zeta in H.
  exists (match lift row with Some true => [lit "Lift"] | _ => [] end),
         (match parkingType row with Some _ => [lit "Parking"] | None => [] end),
         (if notna (balcony row) && ltb zero (balcony row)
          then match int_of_float (balcony row) with
               | Some n => [str_of_Z n ++ lit " Balcony"]
               | None => []
               end
          else []).
  destruct (lift row) as [[|]|]; destruct (parkingType row) as [pt|];
    destruct (notna (balcony row) && ltb zero (balcony row));
    try (destruct (int_of_float (balcony row)) as [n|]; [|discriminate H]);
    injection H as <-;
    (split; [reflexivity|]);
    (split; [first [left; split; [reflexivity|congruence]
                   | right; split; [reflexivity|congruence]]|]);
    (split; [first [left; split; [reflexivity|congruence]
                   | right; split; [reflexivity|congruence]]|]);
    first [left; split; reflexivity
          | right; split; [eexists; reflexivity | reflexivity]].
Qed.

(** X11.  The card never drops an amenity: the list has at most three
    entries, so the cut to three keeps all of them, each shown as one
    badge. *)
Theorem X11_amenities_never_cut : forall row a,
  amenities row = Some a ->
  (List.length a <= 3)%nat
  /\ firstn 3 a = a
  /\ amenities_html a = List.concat (map badge a).
Proof.
  intros row a H.
  assert (L : (List.length a <= 3)%nat).
  { destruct (amenities_cases row H) as (l & p & b & -> & Hl & Hp & Hb).
    rewrite !length_app.
    destruct Hl as [[-> _]|[-> _]], Hp as [[-> _]|[-> _]],
      Hb as [[-> _]|[[n ->] _]]; cbn; lia. }
  assert (F : firstn 3 a = a) by (apply firstn_all2; exact L).
  split; [exact L|]. split; [exact F|].
  unfold amenities_html. rewrite F. reflexivity.
Qed.

Lemma X11_amenities_never_cut_witness :
  amenities Sample2.tower
  = Some [lit "Lift"; lit "Parking"; lit "2 Balcony"]
  /\ amenities_html [lit "Lift"; lit "Parking"; lit "2 Balcony"]
     = badge (lit "Lift") ++ badge (lit "Parking") ++ badge (lit "2 Balcony").
Proof.
  split; [reflexivity|].
  exact (proj2 (proj2 (@X11_amenities_never_cut Sample2.tower
                         [lit "Lift"; lit "Parking"; lit "2 Balcony"]
                         eq_refl))).
Defined.

Lemma amenities_cell_placeholder : forall a,
  amenities_cell a = lit "Contact for details" <-> a = [].
Proof.
  intros a. split; [|intros ->; reflexivity].
  destruct a as [|x a]; [reflexivity|].
  unfold amenities_cell, amenities_html. cbn. intros H. discriminate H.
Qed.

(** X12.  The card shows "Contact for details" exactly when the row has no
    lift (or none recorded), no parking type recorded and no positive
    balcony count. *)
Theorem X12_contact_placeholder_iff_no_amenity : forall row a,
  amenities row = Some a ->
  (amenities_cell a = lit "Contact for details"
   <-> lift row <> Some true
       /\ parkingType row = None
       /\ notna (balcony row) && ltb zero (balcony row) = false).
Proof.
  intros row a H. rewrite amenities_cell_placeholder.
  destruct (amenities_cases row H) as (l & p & b & -> & Hl & Hp & Hb).
  split.
  - intros E. apply app_eq_nil in E as [-> E].
    apply app_eq_nil in E as [-> ->].
    destruct Hl as [[_ Hl]|[Hl _]]; [|discriminate Hl].
    destruct Hp as [[_ Hp]|[Hp _]]; [|discriminate Hp].
    destruct Hb as [[_ Hb]|[[n Hb] _]]; [|discriminate Hb]. auto.
  - intros (Hl' & Hp' & Hb').
    destruct Hl as [[-> _]|[_ Hl]]; [|congruence].
    destruct Hp as [[-> _]|[_ Hp]]; [|congruence].
    destruct Hb as [[-> _]|[_ Hb]]; [reflexivity|congruence].
Qed.

Lemma X12_contact_placeholder_iff_no_amenity_witness :
  amenities Sample2.bare = Some []
  /\ amenities_cell [] = lit "Contact for details"
  /\ lift Sample2.bare <> Some true.
Proof.
  split; [reflexivity|]. split; [reflexivity|].
  exact (proj1 (proj1 (X12_contact_placeholder_iff_no_amenity Sample2.bare
                         eq_refl) eq_refl)).
Defined.

(** X13.  [format_property_card] fails only on an infinite count: it raises
    exactly when the balcony count is plus infinity or the bathroom count is
    an infinity, and returns a card for every other row, whatever is
    missing. *)
Theorem X13_card_fails_iff_infinite_count : forall row,
  format_property_card row = None
  <-> balcony row = S754_infinity false
      \/ exists s, bathrooms row = S754_infinity s.
Proof.
  intros row. unfold format_property_card.
  assert (A : amenities row = None <-> balcony row = S754_infinity false).
  { unfold amenities. cbv zeta.
    destruct (balcony row) as [s|s| |s m e]; cbn.
    - split; discriminate.
    - destruct s; cbn; split; try discriminate; reflexivity.
    - split; discriminate.
    - destruct s; cbn; split; discriminate. }
  assert (B : bathrooms_line row = None <-> exists s, bathrooms row = S754_infinity s).
  { unfold bathrooms_line.
    destruct (bathrooms row) as [s|s| |s m e]; cbn.
    - split; [discriminate | intros [? ?]; discriminate].
    - split; [eauto | reflexivity].
    - split; [discriminate | intros [? ?]; discriminate].
    - split; [discriminate | intros [? ?]; discriminate]. }
  destruct (amenities row) as [a|].
  - destruct (bathrooms_line row) as [bl|].
    + split; [discriminate|]. intros [H|H].
      * apply A in H. discriminate H.
      * apply B in H. discriminate H.
    + split; [|reflexivity]. intros _. right. apply B. reflexivity.
  - split; [|reflexivity]. intros _. left. apply A. reflexivity.
Qed.



(** ** One query, from text to results *)

Lemma respond_eq : forall address_dtype df query,
  exists f,
    parse_query query = Ok f /\ budget_max f = None
    /\ (truthy_str (city f) = Spec.mentions_city (lower query))
    /\ respond address_dtype df query
       = if str_accessor_raises address_dtype df f
         then Raised_AttributeError
         else Returned (generate_summary (search_properties df f 10) f,
                        search_properties df f 10).
Proof.
  intros address_dtype df query. unfold respond. rewrite parse_query_eq.
  eexists. split; [reflexivity|]. split; [reflexivity|].
  split; [|reflexivity].
  cbn [city]. unfold Spec.mentions_city. generalize (lower query). intros q.
  cbn.
  repeat match goal with
         | |- context [contains ?v q] => destruct (contains v q); cbn
         end; reflexivity.
Qed.

(** X15.  Answering a query never ends in ValueError.  It ends in
    AttributeError exactly when the table has rows, its address column is
    float64 (holds no text) and the query names a city.  In every other
    case it returns a summary and at most ten rows, rows of the table in
    table order; on an empty table (what a failed load leaves) these are the
    "No properties found" message and no row. *)
Theorem X15_respond_outcomes : forall address_dtype df query,
  respond address_dtype df query <> Raised_ValueError
  /\ (respond address_dtype df query = Raised_AttributeError
      <-> df <> [] /\ address_dtype = float64_dtype
          /\ Spec.mentions_city (lower query) = true)
  /\ ((exists summary results,
         respond address_dtype df query = Returned (summary, results))
      \/ respond address_dtype df query = Raised_AttributeError)
  /\ (forall summary results,
        respond address_dtype df query = Returned (summary, results) ->
        (List.length results <= 10)%nat
        /\ Subseq results df
        /\ (df = [] -> summary = no_results /\ results = [])).
Proof.
  intros address_dtype df query.
  destruct (respond_eq address_dtype df query) as (f & _ & _ & C & E).
  rewrite E. unfold str_accessor_raises. rewrite C.
  split; [|split; [|split]].
  - destruct df, address_dtype; try discriminate.
    destruct (Spec.mentions_city (lower query)); discriminate.
  - destruct df as [|row df], address_dtype;
      try (split; [discriminate | intros (? & ? & ?); congruence]).
    destruct (Spec.mentions_city (lower query)).
    + split; [intros _; repeat split; discriminate | reflexivity].
    + split; [discriminate | intros (? & ? & ?); congruence].
  - destruct df as [|row df], address_dtype;
      try (left; do 2 eexists; reflexivity).
    destruct (Spec.mentions_city (lower query)); [right; reflexivity|].
    left. do 2 eexists. reflexivity.
  - intros summary results H.
    assert (R : results = search_properties df f 10
                /\ summary = generate_summary (search_properties df f 10) f).
    { destruct df as [|row df], address_dtype;
        try (injection H as <- <-; split; reflexivity).
      destruct (Spec.mentions_city (lower query)); [discriminate H|].
      injection H as <- <-. split; reflexivity. }
    destruct R as [-> ->]. split; [|split].
    + rewrite search_properties_eq, head_nonneg by lia.
      apply (firstn_le_length 10).
    + apply search_Subseq.
    + intros ->. split; reflexivity.
Qed.

Lemma filter_map_swap : forall (p : Listing -> bool) (h : Listing -> Listing) l,
  filter p (map h l) = map h (filter (fun x => p (h x)) l).
Proof.
  intros p h. induction l as [|x l IH]; cbn; [reflexivity|].
  destruct (p (h x)); cbn; congruence.
Qed.

Lemma head_map : forall limit (h : Listing -> Listing) l,
  head limit (map h l) = map h (head limit l).
Proof.
  intros limit h l. unfold head. rewrite length_map.
  destruct (0 <=? limit)%Z; apply firstn_map.
Qed.

Lemma passes_with_price : forall f g row,
  budget_max f = None -> Spec.passes f (with_price g row) = Spec.passes f row.
Proof.
  intros [c b m p] g row H. cbn in H. subst m. reflexivity.
Qed.

(** X16.  The rows returned for a query do not depend on the prices of the
    table: when the prices are replaced in any way, a query that was
    answered is answered with the same rows, carrying the new prices.  The
    summary keeps its first sentence; only what follows it, the average, can
    change. *)
Theorem X16_rows_returned_ignore_prices :
  forall address_dtype df query (g : Listing -> float) summary results,
  respond address_dtype df query = Returned (summary, results) ->
  exists summary',
    respond address_dtype (map (with_price g) df) query
    = Returned (summary', map (with_price g) results)
    /\ (results = [] -> summary' = summary)
    /\ (results <> [] ->
          exists f tail tail',
            parse_query query = Ok f
            /\ summary = summary_head (List.length results) f ++ tail
            /\ summary' = summary_head (List.length results) f ++ tail').
Proof.
  intros address_dtype df query g summary results H.
  destruct (respond_eq address_dtype df query) as (f & P & B & _ & E).
  destruct (respond_eq address_dtype (map (with_price g) df) query)
    as (f' & P' & _ & _ & E').
  rewrite P in P'. injection P' as <-.
  assert (A : str_accessor_raises address_dtype (map (with_price g) df) f
              = str_accessor_raises address_dtype df f)
    by (destruct df; reflexivity).
  assert (S : search_properties (map (with_price g) df) f 10
              = map (with_price g) (search_properties df f 10)).
  { rewrite !search_properties_eq, filter_map_swap, head_map. do 2 f_equal.
    apply filter_ext. intros row. apply passes_with_price, B. }
  rewrite A, S in E'. rewrite E in H. rewrite E'.
  destruct (str_accessor_raises address_dtype df f); [discriminate H|].
  injection H as <- <-.
  eexists. split; [reflexivity|]. split.
  - intros ->. reflexivity.
  - intros N. exists f.
    set (results := search_properties df f 10) in *.
    assert (L : (List.length results =? 0)%nat = false)
      by (destruct results; [congruence | reflexivity]).
    assert (T : forall rs, (List.length rs =? 0)%nat = false ->
                exists tail,
                  generate_summary rs f
                  = summary_head (List.length rs) f ++ tail).
    { intros rs Lr. unfold generate_summary. rewrite Lr.
      destruct (_ <? _)%nat; eexists; [reflexivity|].
      symmetry. apply app_nil_r. }
    destruct (T results L) as [tail Et].
    destruct (T (map (with_price g) results)) as [tail' Et'];
      [rewrite length_map; exact L|].
    rewrite length_map in Et'.
    exists tail, tail'. auto.
Qed.

Lemma X16_rows_returned_ignore_prices_witness :
  respond object_dtype Sample.table (lit "3bhk in mumbai")
  = Returned (lit "Found 1 property matching your 3BHK requirement in Mumbai. Average price is around "
              ++ currency ++ lit "1.10 Cr.",
              [Sample.chembur])
  /\ exists summary',
       respond object_dtype (map (with_price (fun _ => of_Z 1)) Sample.table)
         (lit "3bhk in mumbai")
       = Returned (summary', [with_price (fun _ => of_Z 1) Sample.chembur]).
Proof.
  split; [reflexivity|].
  destruct (X16_rows_returned_ignore_prices object_dtype Sample.table
              (lit "3bhk in mumbai") (fun _ => of_Z 1) eq_refl)
    as (summary' & E & _).
  exists summary'. exact E.
Defined.

(** ** The city filter and case *)



